(** * The token + signaling server (index.js), embedded in Rocq

    The development follows the second revision of the file (the one with
    the [{ socketId?, pushToken? }] records and the [/sendPush] route).

    - [JS]      : the fragment of ECMAScript the handlers rely on
                  (values, ToBoolean, ToString, property reads, Number(),
                  parseInt, IEEE binary64 arithmetic through [SpecFloat]).
    - [Server]  : the registry [clients], the Socket.IO handlers and the
                  two HTTP routes, as functions over an explicit state.
    - [V1]      : the Socket.IO handlers of the first revision, for the
                  comparison of the two.

    Modelling conventions:
    - a JS string is a [string] whose characters stand for code units
      below 256;
    - payloads are JSON data: a property holding such a value is never
      callable, so an object with an own [toString] property has no string
      form and converting it raises a TypeError ([stringable]);
    - the object [clients] is a plain object: besides its own properties,
      a [gmap string client], it inherits [__proto__] and the methods of
      [Object.prototype], and so does every record.  The state keeps what
      the handlers may write there: the [socketId] and [pushToken] set on
      [Object.prototype] itself and on the inherited method objects;
    - payload values are immutable data.  The one place where the code
      could reach into such a value (a push token that is an object or an
      array, stored on [Object.prototype] and then looked up as
      [clients["pushToken"]]) is treated as it is for a primitive value:
      a write is ignored and reads go to [Object.prototype].  The
      properties below that depend on what the registry resolves to are
      stated for states with nothing stored on [Object.prototype]
      ([pristine]);
    - an exception leaving a handler is the [Throw] completion. *)

From Stdlib Require Import ZArith String Ascii List Bool SpecFloat.
From stdpp Require Import gmap strings list.

Local Open Scope string_scope.
Local Open Scope Z_scope.

(* ===================================================================== *)
(** ** ECMAScript fragment *)
(* ===================================================================== *)

Module JS.

(** Numbers are IEEE 754 binary64 values. *)
Abbreviation number := spec_float.

Definition prec : Z := 53.
Definition emax : Z := 1024.

Definition NaN : number := S754_nan.
Definition Infinity : number := S754_infinity false.

(** The Number value of a mathematical integer (round to nearest, ties to
    even). *)
Definition of_Z (z : Z) : number := binary_normalize prec emax z 0 false.

Definition add (x y : number) : number := SFadd prec emax x y.
Definition div (x y : number) : number := SFdiv prec emax x y.

(** [Number.isFinite] on a Number. *)
Definition isFinite (n : number) : bool :=
  match n with
  | S754_zero _ | S754_finite _ _ _ => true
  | S754_infinity _ | S754_nan => false
  end.

(** A Number with a zero fractional part ([Number.isInteger]). *)
Definition isInteger (n : number) : bool :=
  match n with
  | S754_zero _ => true
  | S754_finite _ m e =>
      (0 <=? e) || (Z.pos m mod 2 ^ (- e) =? 0)
  | _ => false
  end.

(** [Math.floor]. *)
Definition floor (n : number) : number :=
  match n with
  | S754_finite s m e =>
      if 0 <=? e then n
      else
        let q := Z.pos m / 2 ^ (- e) in
        let exact := Z.pos m mod 2 ^ (- e) =? 0 in
        if s then binary_normalize prec emax (- (if exact then q else q + 1)) 0 true
        else binary_normalize prec emax q 0 false
  | _ => n
  end.

(** *** Values *)

#[local] Set Warnings "-register-all".

Inductive value :=
| VUndefined
| VNull
| VBoolean (b : bool)
| VNumber (n : number)
| VString (s : string)
| VArray (elems : list value)
| VObject (props : list (string * value)).

(** ToBoolean. *)
Definition ToBoolean (v : value) : bool :=
  match v with
  | VUndefined | VNull => false
  | VBoolean b => b
  | VNumber (S754_zero _) | VNumber S754_nan => false
  | VNumber _ => true
  | VString s => negb (String.eqb s "")
  | VArray _ | VObject _ => true
  end.

(** Number::toString (radix 10) is a primitive of the host. *)
Class NumberFormat := NumberToString : number -> string.

Section ToString.
Context {fmt : NumberFormat}.

(** The string form of a value that has one (see [stringable] below).  An
    array is joined with commas, its [undefined] and [null] elements
    printing as the empty string; a plain object prints as
    [[object Object]]. *)
Fixpoint ToString (v : value) : string :=
  match v with
  | VUndefined => "undefined"
  | VNull => "null"
  | VBoolean true => "true"
  | VBoolean false => "false"
  | VNumber n => NumberToString n
  | VString s => s
  | VArray elems =>
      (fix join (l : list value) : string :=
         match l with
         | [] => ""
         | e :: l' =>
             let se := match e with
                       | VUndefined | VNull => ""
                       | _ => ToString e
                       end in
             match l' with
             | [] => se
             | _ => se +:+ "," +:+ join l'
             end
         end) elems
  | VObject _ => "[object Object]"
  end.

(** The key under which [o[v]] reads and writes, for a value that has a
    string form. *)
Definition ToPropertyKey (v : value) : string := ToString v.
End ToString.

(** *** Completions *)

Inductive completion (A : Type) :=
| Normal (a : A)
| Throw.
Arguments Normal {A} a.
Arguments Throw {A}.

Definition bind {A B} (c : completion A) (k : A -> completion B) : completion B :=
  match c with
  | Normal a => k a
  | Throw => Throw
  end.

(** Own data property of an object literal, first binding wins. *)
Fixpoint lookup_prop (p : string) (props : list (string * value)) : value :=
  match props with
  | [] => VUndefined
  | (k, v) :: rest => if String.eqb k p then v else lookup_prop p rest
  end.

(** [v.p] (also the destructuring [const { p } = v]) for the property
    names the handlers read ([userId], [pushToken], [to], [from],
    [channel]): a TypeError on [undefined] and [null], the own property on
    an object, [undefined] on any other value. *)
Definition Get (v : value) (p : string) : completion value :=
  match v with
  | VUndefined | VNull => Throw
  | VObject props => Normal (lookup_prop p props)
  | _ => Normal VUndefined
  end.

(** *** Conversions that may throw *)

(** Own property test on an object literal. *)
Definition has_prop (p : string) (props : list (string * value)) : bool :=
  existsb (fun kv => String.eqb (fst kv) p) props.

(** Whether ToString completes normally.  An object converts through the
    inherited [toString] unless it has an own property of that name: this
    one is data, hence not callable, [valueOf] gives no primitive either,
    and the conversion raises a TypeError.  An array converts when all its
    elements do. *)
Fixpoint stringable (v : value) : bool :=
  match v with
  | VObject props => negb (has_prop "toString" props)
  | VArray elems =>
      (fix all (l : list value) : bool :=
         match l with
         | [] => true
         | e :: l' => stringable e && all l'
         end) elems
  | _ => true
  end.

(** ToString, as a completion: a template literal [`${v}`]. *)
Definition TryToString {fmt : NumberFormat} (v : value) : completion string :=
  if stringable v then Normal (ToString v) else Throw.

(** ToPropertyKey, as a completion: the key of [o[v]]. *)
Definition TryToPropertyKey {fmt : NumberFormat} (v : value) : completion string :=
  if stringable v then Normal (ToPropertyKey v) else Throw.

(** *** Number(string) and parseInt(string, 10) *)

Definition code (c : ascii) : Z := Z.of_N (N_of_ascii c).

(** White space and line terminators among the code units below 256. *)
Definition is_white_space (c : ascii) : bool :=
  let n := code c in
  ((9 <=? n) && (n <=? 13)) || (n =? 32) || (n =? 160).

Fixpoint trim_start (s : string) : string :=
  match s with
  | String c s' => if is_white_space c then trim_start s' else s
  | EmptyString => EmptyString
  end.

Fixpoint trim_end (s : string) : string :=
  match s with
  | String c s' =>
      let r := trim_end s' in
      if is_white_space c && String.eqb r "" then "" else String c r
  | EmptyString => EmptyString
  end.

Definition trim (s : string) : string := trim_end (trim_start s).

(** Value of a digit in bases up to 16. *)
Definition digit_value (c : ascii) : option Z :=
  let n := code c in
  if (48 <=? n) && (n <=? 57) then Some (n - 48)
  else if (97 <=? n) && (n <=? 102) then Some (n - 87)
  else if (65 <=? n) && (n <=? 70) then Some (n - 55)
  else None.

(** Longest prefix of radix-[r] digits: accumulated value, number of
    digits read, and the rest of the string. *)
Fixpoint span_digits (r : Z) (s : string) (acc : Z) (cnt : Z) : Z * Z * string :=
  match s with
  | String c s' =>
      match digit_value c with
      | Some d => if d <? r then span_digits r s' (acc * r + d) (cnt + 1)
                  else (acc, cnt, s)
      | None => (acc, cnt, s)
      end
  | EmptyString => (acc, cnt, s)
  end.

Definition strip_sign (s : string) : bool * string :=
  match s with
  | String "+" s' => (false, s')
  | String "-" s' => (true, s')
  | _ => (false, s)
  end.

(** ExponentPart, read to the end of the string; absent is exponent 0. *)
Definition ExponentPart (s : string) : option Z :=
  match s with
  | EmptyString => Some 0
  | String c s' =>
      if (code c =? 101) || (code c =? 69) then
        let '(neg, s'') := strip_sign s' in
        let '(v, n, rest) := span_digits 10 s'' 0 0 in
        if (0 <? n) && String.eqb rest "" then Some (if neg then - v else v)
        else None
      else None
  end.

Inductive decimal :=
| DInfinity
| DFinite (m : Z) (e : Z).   (* m * 10^e, 0 <= m *)

Definition StrUnsignedDecimalLiteral (s : string) : option decimal :=
  if String.eqb s "Infinity" then Some DInfinity
  else
    let '(i, ni, r1) := span_digits 10 s 0 0 in
    let '(m, nf, r2) :=
      match r1 with
      | String "." r => span_digits 10 r i 0
      | _ => (i, 0, r1)
      end in
    if 0 <? ni + nf then
      match ExponentPart r2 with
      | Some x => Some (DFinite m (x - nf))
      | None => None
      end
    else None.

(** [0x], [0o] and [0b] literals (unsigned, digits to the end). *)
Definition NonDecimalIntegerLiteral (s : string) : option Z :=
  match s with
  | String "0" (String p s') =>
      let radix :=
        if (code p =? 120) || (code p =? 88) then Some 16
        else if (code p =? 111) || (code p =? 79) then Some 8
        else if (code p =? 98) || (code p =? 66) then Some 2
        else None in
      match radix with
      | Some r =>
          let '(v, n, rest) := span_digits r s' 0 0 in
          if (0 <? n) && String.eqb rest "" then Some v else None
      | None => None
      end
  | _ => None
  end.

(** The Number nearest to [(-1)^neg * m * 10^e]. *)
Definition round_decimal (neg : bool) (m e : Z) : number :=
  match m with
  | Z.pos p =>
      if 0 <=? e then binary_normalize prec emax (if neg then - (m * 10 ^ e) else m * 10 ^ e) 0 neg
      else SFdiv prec emax (S754_finite neg p 0)
                           (S754_finite false (Z.to_pos (10 ^ (- e))) 0)
  | _ => S754_zero neg
  end.

(** StringToNumber, i.e. [Number(s)] for a string [s]. *)
Definition StringToNumber (s : string) : number :=
  let t := trim s in
  if String.eqb t "" then S754_zero false
  else
    match NonDecimalIntegerLiteral t with
    | Some z => of_Z z
    | None =>
        let '(neg, u) := strip_sign t in
        match StrUnsignedDecimalLiteral u with
        | Some DInfinity => S754_infinity neg
        | Some (DFinite m e) => round_decimal neg m e
        | None => NaN
        end
    end.

(** ToNumber.  An array or object goes through its string form. *)
Definition ToNumber {fmt : NumberFormat} (v : value) : number :=
  match v with
  | VUndefined => NaN
  | VNull => S754_zero false
  | VBoolean b => if b then of_Z 1 else S754_zero false
  | VNumber n => n
  | VString s => StringToNumber s
  | VArray _ | VObject _ => StringToNumber (ToString v)
  end.

(** [parseInt(s, 10)]. *)
Definition parseInt10 (s : string) : number :=
  let '(neg, u) := strip_sign (trim_start s) in
  let '(v, n, _) := span_digits 10 u 0 0 in
  if 0 <? n then binary_normalize prec emax (if neg then - v else v) 0 neg
  else NaN.

End JS.


(* ===================================================================== *)
(** ** Collaborators *)
(* ===================================================================== *)

(** The signing primitive of agora-access-token.  [Throw] is an exception
    raised by the builder. *)
Module Agora.
Inductive RtcRole := PUBLISHER | SUBSCRIBER.

Class RtcTokenBuilder :=
  buildTokenWithUid :
    string -> string -> JS.value -> JS.number -> RtcRole -> JS.number ->
    JS.completion string.
End Agora.

(** The push provider reached through [fetch]. *)
Module Push.
Record request := {
  url : string;
  method : string;
  headers : list (string * string);
  body : JS.value            (* the object handed to JSON.stringify *)
}.

Record reply := {
  ok : bool;
  status : Z;
  text : JS.completion string  (* [await pushResponse.text()] *)
}.

(** A promise that rejects (transport error) or resolves to a reply. *)
Inductive outcome := Rejected | Resolved (r : reply).

Class Fetch := fetch : request -> outcome.
End Push.

(* ===================================================================== *)
(** ** The server *)
(* ===================================================================== *)

Import JS.

#[export] Instance completion_ret : MRet completion := @Normal.
#[export] Instance completion_bind : MBind completion :=
  fun A B k c => JS.bind c k.

(** *** Configuration *)

Record environment := {
  env_APP_ID : option string;
  env_APP_CERTIFICATE : option string;
  env_TOKEN_EXPIRE_S : option string
}.

(** [process.env.X || d]: an unset or empty variable gives the default. *)
Definition or_default (x : option string) (d : string) : string :=
  match x with
  | Some s => if String.eqb s "" then d else s
  | None => d
  end.

Definition APP_ID (env : environment) : string :=
  or_default (env_APP_ID env) "60bdf4f5f1b641f583d20d28d7a923d1".
Definition APP_CERTIFICATE (env : environment) : string :=
  or_default (env_APP_CERTIFICATE env) "85ffadb2cbf34c4b8b7d109b7f5c8072".

(** *** HTTP *)

Record response := { res_status : Z; res_json : value }.

(** [res.status(c).json({ error: msg })] *)
Definition error_response (c : Z) (msg : string) : response :=
  {| res_status := c; res_json := VObject [("error", VString msg)] |}.

(** [res.json(v)], status 200. *)
Definition json_response (v : value) : response :=
  {| res_status := 200; res_json := v |}.

(** [req.query] of GET /rtcToken; an absent parameter is [undefined]. *)
Record query := { channelName : value; uid : value }.

(** *** Registry and sockets *)

(** userId -> { socketId?, pushToken? } *)
Record client := { socketId : option string; pushToken : option value }.

Definition empty_client : client := {| socketId := None; pushToken := None |}.
Definition set_socketId (id : string) (c : client) : client :=
  {| socketId := Some id; pushToken := pushToken c |}.
Definition delete_socketId (c : client) : client :=
  {| socketId := None; pushToken := pushToken c |}.
Definition set_pushToken (t : value) (c : client) : client :=
  {| socketId := socketId c; pushToken := Some t |}.

(** The shared state:
    - [clients]: the own properties of the object [clients];
    - [data_userId]: for each socket (named by its [socket.id]), the value
      of [socket.data.userId];
    - [prototype]: the [socketId] and [pushToken] properties written on
      [Object.prototype] (through [clients["__proto__"]]);
    - [builtins]: the same two properties written on the method objects
      that [clients] inherits, by name. *)
Record server := {
  clients : gmap string client;
  data_userId : gmap string value;
  prototype : client;
  builtins : gmap string client
}.

Definition initial : server :=
  {| clients := ∅; data_userId := ∅; prototype := empty_client; builtins := ∅ |}.

(** [io.to(room).emit(event, payload)] *)
Record emission := { room : string; event : string; payload : value }.

(** Truthiness of an optional socket id ([undefined] or a string). *)
Definition truthy_id (o : option string) : bool :=
  match o with
  | Some s => negb (String.eqb s "")
  | None => false
  end.

(** Truthiness of an optional stored value. *)
Definition truthy_opt (o : option value) : bool :=
  match o with
  | Some v => ToBoolean v
  | None => false
  end.


(** [null] and [undefined]. *)
Definition nullish (v : value) : bool :=
  match v with
  | VUndefined | VNull => true
  | _ => false
  end.

(** The methods every object inherits from [Object.prototype]. *)
Definition inherited_methods : list string :=
  ["constructor"; "toString"; "toLocaleString"; "valueOf"; "hasOwnProperty";
   "isPrototypeOf"; "propertyIsEnumerable"; "__defineGetter__";
   "__defineSetter__"; "__lookupGetter__"; "__lookupSetter__"].

Definition is_inherited_method (k : string) : bool :=
  existsb (String.eqb k) inherited_methods.

(** A key under which [clients] inherits nothing built in. *)
Definition plain_key (k : string) : bool :=
  negb (String.eqb k "__proto__") && negb (is_inherited_method k).

(** What [clients[k]] evaluates to. *)
Inductive target :=
| Own (c : client)            (* an own record *)
| ObjectPrototype             (* [clients.__proto__] *)
| Method (name : string)      (* an inherited method object *)
| InheritedValue (v : value)  (* the value of a property written on
                                 [Object.prototype] *)
| Missing.                    (* [undefined] *)

(** Truthiness of [clients[k]]. *)
Definition truthy_target (t : target) : bool :=
  match t with
  | Own _ | ObjectPrototype | Method _ => true
  | InheritedValue v => ToBoolean v
  | Missing => false
  end.

(** An own property shadows the inherited one. *)
Definition own_or_inherited {A} (own inherited : option A) : option A :=
  match own with
  | Some x => Some x
  | None => inherited
  end.

Definition with_clients (st : server) (cl : gmap string client) : server :=
  {| clients := cl; data_userId := data_userId st;
     prototype := prototype st; builtins := builtins st |}.

Definition with_data_userId (st : server) (d : gmap string value) : server :=
  {| clients := clients st; data_userId := d;
     prototype := prototype st; builtins := builtins st |}.

Definition with_prototype (st : server) (c : client) : server :=
  {| clients := clients st; data_userId := data_userId st;
     prototype := c; builtins := builtins st |}.

Definition with_builtins (st : server) (b : gmap string client) : server :=
  {| clients := clients st; data_userId := data_userId st;
     prototype := prototype st; builtins := b |}.

(** What a listener did: the messages it emitted, in order, and how it
    completed (the state it left, or an exception). *)
Record effect := { emitted : list emission; completed : completion server }.

Section Server.
Context {fmt : NumberFormat} {builder : Agora.RtcTokenBuilder} {net : Push.Fetch}.

(** [clients[k]] for a property key [k]: the own property, else what
    [Object.prototype] provides under that name. *)
Definition clients_at (st : server) (k : string) : target :=
  match clients st !! k with
  | Some c => Own c
  | None =>
      if String.eqb k "__proto__" then ObjectPrototype
      else if is_inherited_method k then Method k
      else if String.eqb k "socketId" then
        match socketId (prototype st) with
        | Some s => InheritedValue (VString s)
        | None => Missing
        end
      else if String.eqb k "pushToken" then
        match pushToken (prototype st) with
        | Some t => InheritedValue t
        | None => Missing
        end
      else Missing
  end.

(** [x?.socketId] for [x = clients[k]]. *)
Definition read_socketId (st : server) (x : target) : option string :=
  match x with
  | Own c => own_or_inherited (socketId c) (socketId (prototype st))
  | ObjectPrototype => socketId (prototype st)
  | Method n => own_or_inherited (builtins st !! n ≫= socketId) (socketId (prototype st))
  | InheritedValue v => if nullish v then None else socketId (prototype st)
  | Missing => None
  end.

(** [x?.pushToken] for [x = clients[k]]. *)
Definition read_pushToken (st : server) (x : target) : option value :=
  match x with
  | Own c => own_or_inherited (pushToken c) (pushToken (prototype st))
  | ObjectPrototype => pushToken (prototype st)
  | Method n => own_or_inherited (builtins st !! n ≫= pushToken) (pushToken (prototype st))
  | InheritedValue v => if nullish v then None else pushToken (prototype st)
  | Missing => None
  end.

(** [clients[k]] for a value [k] that has a string form. *)
Definition toClient (st : server) (k : value) : target :=
  clients_at st (ToPropertyKey k).

(** [clients[k]?.socketId] *)
Definition toSocket (st : server) (k : value) : option string :=
  read_socketId st (toClient st k).

(** [clients[k]?.pushToken] *)
Definition toPushToken (st : server) (k : value) : option value :=
  read_pushToken st (toClient st k).

(** [if (!clients[k]) clients[k] = {}] *)
Definition ensure_client (k : string) (st : server) : server :=
  if truthy_target (clients_at st k) then st
  else with_clients st (<[k := empty_client]> (clients st)).

(** [clients[k].socketId = ...], [clients[k].pushToken = ...] and
    [delete clients[k].socketId], as the change [f] of the fields of the
    object [clients[k]].  The file is not in strict mode: writing a
    property on a primitive value is ignored; on [undefined] or [null] it
    is a TypeError. *)
Definition write (f : client → client) (k : string) (st : server) : completion server :=
  match clients_at st k with
  | Own _ => Normal (with_clients st (alter f k (clients st)))
  | ObjectPrototype => Normal (with_prototype st (f (prototype st)))
  | Method n =>
      Normal (with_builtins st
                (<[n := f (default empty_client (builtins st !! n))]> (builtins st)))
  | InheritedValue v => if nullish v then Throw else Normal st
  | Missing => Throw
  end.

(** [msg.pushToken] (also through destructuring): the own property, else
    the one inherited from [Object.prototype]. *)
Definition Get_pushToken (st : server) (msg : value) : completion value :=
  match msg with
  | VUndefined | VNull => Throw
  | VObject props =>
      if has_prop "pushToken" props then Normal (lookup_prop "pushToken" props)
      else Normal (default VUndefined (pushToken (prototype st)))
  | _ => Normal (default VUndefined (pushToken (prototype st)))
  end.

(** GET /rtcToken, at time [now] (milliseconds, [Date.now()]). *)
Definition rtcToken (env : environment) (now : Z) (q : query) : response :=
  if negb (ToBoolean (channelName q)) || negb (ToBoolean (uid q)) then
    error_response 400 "channelName and uid required"
  else
    let uidInt := ToNumber (uid q) in
    if negb (isFinite uidInt) then
      error_response 400 "uid must be numeric"
    else
      let expireSeconds := parseInt10 (or_default (env_TOKEN_EXPIRE_S env) "3600") in
      let currentTs := floor (div (of_Z now) (of_Z 1000)) in
      let privilegeExpiredTs := add currentTs expireSeconds in
      match Agora.buildTokenWithUid (APP_ID env) (APP_CERTIFICATE env)
              (channelName q) uidInt Agora.PUBLISHER privilegeExpiredTs with
      | Normal token =>
          json_response (VObject [("rtcToken", VString token);
                                  ("uid", VNumber uidInt);
                                  ("channelName", channelName q)])
      | Throw => error_response 500 "token_generation_failed"
      end.

(** socket.on('register') for the socket [socket]. *)
Definition register (socket : string) (msg : value) (st : server)
  : completion (server * list emission) :=
  userId ← Get msg "userId";
  _ ← TryToString userId;
  if negb (ToBoolean userId) then mret (st, [])
  else
    let k := ToPropertyKey userId in
    st1 ← write (set_socketId socket) k (ensure_client k st);
    mret (with_data_userId st1 (<[socket := userId]> (data_userId st1)), []).

(** socket.on('register_push') *)
Definition register_push (socket : string) (msg : value) (st : server)
  : completion (server * list emission) :=
  userId ← Get msg "userId";
  token ← Get_pushToken st msg;
  _ ← TryToString userId;
  _ ← TryToString token;
  if negb (ToBoolean userId) || negb (ToBoolean token) then mret (st, [])
  else
    let k := ToPropertyKey userId in
    st1 ← write (set_pushToken token) k (ensure_client k st);
    mret (st1, []).

(** A listener that throws before emitting anything. *)
Definition throws (st : server) : effect :=
  {| emitted := []; completed := Throw |}.

(** socket.on('call'): the message is emitted before the line that logs
    [payload.from]. *)
Definition call (socket : string) (msg : value) (st : server) : effect :=
  match Get msg "to" with
  | Throw => throws st
  | Normal to =>
      match TryToPropertyKey to with
      | Throw => throws st
      | Normal k =>
          let toClient := clients_at st k in
          if truthy_id (read_socketId st toClient) then
            {| emitted := [{| room := default "" (read_socketId st toClient);
                              event := "incoming_call"; payload := msg |}];
               completed := from ← Get msg "from"; _ ← TryToString from; mret st |}
          else
            {| emitted := [{| room := socket; event := "callee_unavailable";
                              payload := VObject [("to", to)] |}];
               completed := mret st |}
      end
  end.

(** The common shape of accept_call, reject_call and end_call: forward
    under the name [out], then log [payload.from], or only log. *)
Definition forward (out : string) (msg : value) (st : server) : effect :=
  match Get msg "to" with
  | Throw => throws st
  | Normal to =>
      match TryToPropertyKey to with
      | Throw => throws st
      | Normal k =>
          let toSocket := read_socketId st (clients_at st k) in
          if truthy_id toSocket then
            {| emitted := [{| room := default "" toSocket; event := out;
                              payload := msg |}];
               completed := from ← Get msg "from"; _ ← TryToString from; mret st |}
          else {| emitted := []; completed := mret st |}
      end
  end.

(** socket.on('accept_call') *)
Definition accept_call (socket : string) := forward "call_accepted".
(** socket.on('reject_call') *)
Definition reject_call (socket : string) := forward "call_rejected".
(** socket.on('end_call') *)
Definition end_call (socket : string) := forward "end_call".

(** socket.on('disconnect') *)
Definition disconnect (socket : string) (st : server)
  : completion (server * list emission) :=
  let uid := default VUndefined (data_userId st !! socket) in
  _ ← TryToString uid;
  if ToBoolean uid then
    if truthy_target (clients_at st (ToPropertyKey uid)) then
      st1 ← write delete_socketId (ToPropertyKey uid) st;
      mret (st1, [])
    else mret (st, [])
  else mret (st, []).

(** The message posted to the push provider. *)
Definition push_request (token from channel : value) : Push.request :=
  {| Push.url := "https://exp.host/--/api/v2/push/send";
     Push.method := "POST";
     Push.headers := [("Content-Type", "application/json")];
     Push.body :=
       VObject [("to", token);
                ("title", VString "Incoming Call");
                ("body", VString (ToString from +:+ " is calling you"));
                ("data", VObject [("type", VString "incoming_call");
                                  ("from", from);
                                  ("channel", channel)])] |}.

(** POST /sendPush with [req.body = body]: the response and the requests
    submitted to the push provider.  The line that logs the token, [from]
    and [channel] comes before the [try]. *)
Definition sendPush (body : value) (st : server)
  : completion (response * list Push.request) :=
  to ← Get body "to";
  from ← Get body "from";
  channel ← Get body "channel";
  k ← TryToPropertyKey to;
  let token := read_pushToken st (clients_at st k) in
  if negb (truthy_opt token) then
    mret (error_response 400 "No push token for recipient", [])
  else
    _ ← TryToString (default VUndefined token);
    _ ← TryToString from;
    _ ← TryToString channel;
    let rq := push_request (default VUndefined token) from channel in
    match Push.fetch rq with
    | Push.Resolved pushResponse =>
        if negb (Push.ok pushResponse) then
          match Push.text pushResponse with
          | Normal errorText => mret (json_response (VObject [("ok", VBoolean true)]), [rq])
          | Throw => mret (error_response 500 "push_failed", [rq])
          end
        else mret (json_response (VObject [("ok", VBoolean true)]), [rq])
    | Push.Rejected => mret (error_response 500 "push_failed", [rq])
    end.

(** *** Events on the signaling channel *)

Inductive message :=
| Register (socket : string) (msg : value)
| RegisterPush (socket : string) (msg : value)
| Call (socket : string) (msg : value)
| AcceptCall (socket : string) (msg : value)
| RejectCall (socket : string) (msg : value)
| EndCall (socket : string) (msg : value)
| Disconnect (socket : string).

(** What handling a message gives when the listener completes normally;
    an exception is [Throw], whatever was emitted before it. *)
Definition settle (e : effect) : completion (server * list emission) :=
  st' ← completed e; mret (st', emitted e).

Definition handle (m : message) (st : server) : completion (server * list emission) :=
  match m with
  | Register s p => register s p st
  | RegisterPush s p => register_push s p st
  | Call s p => settle (call s p st)
  | AcceptCall s p => settle (accept_call s p st)
  | RejectCall s p => settle (reject_call s p st)
  | EndCall s p => settle (end_call s p st)
  | Disconnect s => disconnect s st
  end.

(** Handling a sequence of messages in order, collecting what is
    emitted; an exception in a handler stops the run. *)
Fixpoint run (ms : list message) (st : server) : completion (server * list emission) :=
  match ms with
  | [] => mret (st, [])
  | m :: ms' =>
      '(st1, out1) ← handle m st;
      '(st2, out2) ← run ms' st1;
      mret (st2, (out1 ++ out2)%list)
  end.

(** *** Notions used to state the properties *)

(** Nothing has been written on [Object.prototype]. *)
Definition pristine (st : server) : Prop := prototype st = empty_client.

(** The state after socket [s] registered as [u], for a key under which an
    own record is created or updated. *)
Definition registered (s : string) (u : value) (st : server) : server :=
  {| clients := <[ToPropertyKey u :=
                    set_socketId s (default empty_client (clients st !! ToPropertyKey u))]>
                  (clients st);
     data_userId := <[s := u]> (data_userId st);
     prototype := prototype st;
     builtins := builtins st |}.

(** Registering a list of (socket, payload) pairs, in order. *)
Definition registrations (calls : list (string * value)) : list message :=
  map (λ c, Register c.1 c.2) calls.

(** The 200 answer of POST /sendPush. *)
Definition ok_response : response := json_response (VObject [("ok", VBoolean true)]).

(** What the route answers once the request [rq] has been handed to
    [fetch]. *)
Definition after_fetch (rq : Push.request) : response :=
  match Push.fetch rq with
  | Push.Resolved r =>
      if Push.ok r then ok_response
      else match Push.text r with
           | Normal _ => ok_response
           | Throw => error_response 500 "push_failed"
           end
  | Push.Rejected => error_response 500 "push_failed"
  end.

End Server.

(** *** Concrete collaborators and payloads for the scenarios *)

Module Scenario.
(** No scenario below has a number turned into a string. *)
Definition plain_format : NumberFormat := fun _ => "".

Definition signer_ok : Agora.RtcTokenBuilder :=
  fun _ _ _ _ _ _ => Normal "token".

Definition signer_fails : Agora.RtcTokenBuilder :=
  fun _ _ _ _ _ _ => Throw.

Definition provider_accepts : Push.Fetch :=
  fun _ => Push.Resolved {| Push.ok := true; Push.status := 200;
                            Push.text := Normal "{}" |}.

(** The provider answers with a non-success status. *)
Definition provider_refuses : Push.Fetch :=
  fun _ => Push.Resolved {| Push.ok := false; Push.status := 400;
                            Push.text := Normal "invalid push token" |}.

Definition no_env : environment :=
  {| env_APP_ID := None; env_APP_CERTIFICATE := None; env_TOKEN_EXPIRE_S := None |}.

Definition userId_msg (u : string) : value := VObject [("userId", VString u)].

Definition push_msg (u t : string) : value :=
  VObject [("userId", VString u); ("pushToken", VString t)].

Definition call_msg (to from : string) : value :=
  VObject [("to", VString to); ("from", VString from); ("channel", VString "room1")].

(** [doctor] is registered on socket [c1]. *)
Definition doctor_online : server :=
  {| clients := {[ "doctor" := {| socketId := Some "c1"; pushToken := None |} ]};
     data_userId := {[ "c1" := VString "doctor" ]};
     prototype := empty_client; builtins := ∅ |}.

(** [doctor] is registered on socket [c1] and has a push token. *)
Definition doctor_with_token : server :=
  {| clients := {[ "doctor" := {| socketId := Some "c1";
                                  pushToken := Some (VString "ExponentPushToken[x]") |} ]};
     data_userId := {[ "c1" := VString "doctor" ]};
     prototype := empty_client; builtins := ∅ |}.

(** [doctor] has a push token and no live connection. *)
Definition doctor_offline : server :=
  {| clients := {[ "doctor" := {| socketId := None;
                                  pushToken := Some (VString "ExponentPushToken[x]") |} ]};
     data_userId := ∅; prototype := empty_client; builtins := ∅ |}.

Definition room1 (u : string) : query :=
  {| channelName := VString "room1"; uid := VString u |}.

(** An object with an own [toString] property: it has no string form. *)
Definition no_string_form : value := VObject [("toString", VNumber (of_Z 1))].

(** 1.5 as a binary64 value. *)
Definition one_and_a_half : number := S754_finite false 6755399441055744 (-52).

(** A signing primitive that signs for the participant 1.5 and throws for
    any other. *)
Definition signer_for_one_and_a_half : Agora.RtcTokenBuilder :=
  fun _ _ _ participant _ _ =>
    match participant with
    | S754_finite false 6755399441055744 (-52) => Normal "token"
    | _ => Throw
    end.
End Scenario.

(* ===================================================================== *)
(** ** The rest of the file *)
(* ===================================================================== *)

(** *** Start-up and the health route *)

(** The test of [if (!APP_ID || !APP_CERTIFICATE) { ...; process.exit(1) }]:
    whether the process exits before listening. *)
Definition exits_at_startup (env : environment) : bool :=
  negb (ToBoolean (VString (APP_ID env)))
  || negb (ToBoolean (VString (APP_CERTIFICATE env))).

(** [process.env.PORT || 3000] *)
Definition PORT (env_PORT : option string) : value :=
  match env_PORT with
  | Some s => if String.eqb s "" then VNumber (of_Z 3000) else VString s
  | None => VNumber (of_Z 3000)
  end.

(** GET /health *)
Definition health : response :=
  {| res_status := 200;
     res_json := VObject [("status", VString "ok");
                          ("message", VString "Server is running")] |}.

(** *** Reading messages *)

(** The socket a message comes from. *)
Definition sender (m : message) : string :=
  match m with
  | Register s _ | RegisterPush s _ | Call s _ | AcceptCall s _
  | RejectCall s _ | EndCall s _ | Disconnect s => s
  end.

(** The payload of a message; [disconnect] has none. *)
Definition message_payload (m : message) : option value :=
  match m with
  | Register _ p | RegisterPush _ p | Call _ p | AcceptCall _ p
  | RejectCall _ p | EndCall _ p => Some p
  | Disconnect _ => None
  end.

(** The four call-lifecycle events. *)
Definition is_routing (m : message) : bool :=
  match m with
  | Call _ _ | AcceptCall _ _ | RejectCall _ _ | EndCall _ _ => true
  | _ => false
  end.

(** A string made of white space only. *)
Fixpoint all_white_space (s : string) : bool :=
  match s with
  | String c s' => is_white_space c && all_white_space s'
  | EmptyString => true
  end.

(** A payload field that can be read and has a string form. *)
Definition field_ok (p : value) (name : string) : bool :=
  match Get p name with
  | Normal v => stringable v
  | Throw => false
  end.

(** A message whose payload is an object (or any value but [null] and
    [undefined]) and whose fields, as far as the listener converts them to
    strings, have a string form. *)
Definition well_formed (m : message) : bool :=
  match m with
  | Register _ p => field_ok p "userId"
  | RegisterPush _ p => field_ok p "userId" && field_ok p "pushToken"
  | Call _ p | AcceptCall _ p | RejectCall _ p | EndCall _ p =>
      field_ok p "to" && field_ok p "from"
  | Disconnect _ => true
  end.

(** *** States the server can be in *)

(** A stored push token is truthy and has a string form. *)
Definition good_token (c : client) : Prop :=
  ∀ t, pushToken c = Some t → ToBoolean t = true ∧ stringable t = true.

Section Reachable.
Context {fmt : NumberFormat}.

(** A payload whose userId, if it can be read, gives a key that is not a
    name inherited from [Object.prototype]. *)
Definition plain_userId (p : value) : bool :=
  match Get p "userId" with
  | Normal u => plain_key (ToPropertyKey u)
  | Throw => true
  end.

(** The state after a push token [t] was stored for [u], for a key under
    which an own record is created or updated. *)
Definition pushed (u t : value) (st : server) : server :=
  with_clients st
    (<[ToPropertyKey u :=
         set_pushToken t (default empty_client (clients st !! ToPropertyKey u))]>
       (clients st)).

(** A message that does not register under a name inherited from
    [Object.prototype]. *)
Definition plain_message (m : message) : bool :=
  match m with
  | Register _ p | RegisterPush _ p => plain_userId p
  | _ => true
  end.

(** A state reached from the empty registry by handling messages none of
    which registers under a name inherited from [Object.prototype]. *)
Definition reachable (st : server) : Prop :=
  ∃ ms out, forallb plain_message ms = true ∧ run ms initial = Normal (st, out).

(** Every push token on file (in a record, on [Object.prototype] or on an
    inherited method) and every user id remembered on a socket is truthy
    and has a string form. *)
Definition consistent (st : server) : Prop :=
  (∀ k c, clients st !! k = Some c → good_token c)
  ∧ good_token (prototype st)
  ∧ (∀ n c, builtins st !! n = Some c → good_token c)
  ∧ (∀ s u, data_userId st !! s = Some u →
            ToBoolean u = true ∧ stringable u = true).

End Reachable.

(** *** The first revision of the file

    There [clients] maps a user id directly to a socket id, there is no
    [register_push] listener and no [/sendPush] route; [/health] and
    [/rtcToken] are as in the second revision.  Nothing is ever written
    on [Object.prototype]: [clients["__proto__"] = id] leaves the prototype
    as it is, and no listener writes on [clients[k]]. *)

Module V1.

(** map userId -> socketId: the own properties of [clients]. *)
Record server := {
  clients : gmap string string;
  data_userId : gmap string value
}.

Definition initial : server := {| clients := ∅; data_userId := ∅ |}.

(** What [clients[k]] evaluates to: a stored socket id, an object that
    every plain object inherits ([Object.prototype] itself under
    [__proto__], or one of its methods), or [undefined]. *)
Inductive target :=
| Id (s : string)
| Inherited (name : string)
| Missing.

(** The argument of [io.to]: a socket id, or an inherited object. *)
Inductive destination :=
| ToSocket (id : string)
| ToObject (name : string).

(** [io.to(dest).emit(event, payload)] *)
Record emission := { dest : destination; event : string; payload : value }.

Record effect := { emitted : list emission; completed : completion server }.

Section Handlers.
Context {fmt : NumberFormat}.

Definition clients_at (st : server) (k : string) : target :=
  match clients st !! k with
  | Some s => Id s
  | None =>
      if String.eqb k "__proto__" || is_inherited_method k then Inherited k
      else Missing
  end.

(** Where [if (toSocket) io.to(toSocket)] sends, when [toSocket] is
    truthy. *)
Definition destination_of (t : target) : option destination :=
  match t with
  | Id s => if String.eqb s "" then None else Some (ToSocket s)
  | Inherited n => Some (ToObject n)
  | Missing => None
  end.

(** socket.on('register'): the falsy test comes first; assigning a string
    to [clients["__proto__"]] does nothing. *)
Definition register (socket : string) (msg : value) (st : server)
  : completion (server * list emission) :=
  userId ← Get msg "userId";
  if negb (ToBoolean userId) then mret (st, [])
  else
    k ← TryToPropertyKey userId;
    mret ({| clients := if String.eqb k "__proto__" then clients st
                        else <[k := socket]> (clients st);
             data_userId := <[socket := userId]> (data_userId st) |}, []).

Definition throws : effect := {| emitted := []; completed := Throw |}.

(** socket.on('call') *)
Definition call (socket : string) (msg : value) (st : server) : effect :=
  match Get msg "to" with
  | Throw => throws
  | Normal to =>
      match TryToPropertyKey to with
      | Throw => throws
      | Normal k =>
          match destination_of (clients_at st k) with
          | Some d =>
              {| emitted := [{| dest := d; event := "incoming_call"; payload := msg |}];
                 completed := from ← Get msg "from"; _ ← TryToString from; mret st |}
          | None =>
              {| emitted := [{| dest := ToSocket socket; event := "callee_unavailable";
                                payload := VObject [("to", to)] |}];
                 completed := mret st |}
          end
      end
  end.

(** accept_call, reject_call and end_call: forward under the name [out];
    [logs] tells whether the listener then logs [payload.from]
    (reject_call does not). *)
Definition forward (out : string) (logs : bool) (msg : value) (st : server) : effect :=
  match Get msg "to" with
  | Throw => throws
  | Normal to =>
      match TryToPropertyKey to with
      | Throw => throws
      | Normal k =>
          match destination_of (clients_at st k) with
          | Some d =>
              {| emitted := [{| dest := d; event := out; payload := msg |}];
                 completed :=
                   if logs then from ← Get msg "from"; _ ← TryToString from; mret st
                   else mret st |}
          | None => {| emitted := []; completed := mret st |}
          end
      end
  end.

Definition accept_call (socket : string) := forward "call_accepted" true.
Definition reject_call (socket : string) := forward "call_rejected" false.
Definition end_call (socket : string) := forward "end_call" true.

(** socket.on('disconnect'): [delete clients[uid]] removes an own
    property only. *)
Definition disconnect (socket : string) (st : server)
  : completion (server * list emission) :=
  let uid := default VUndefined (data_userId st !! socket) in
  if ToBoolean uid then
    k ← TryToPropertyKey uid;
    mret ({| clients := delete k (clients st);
             data_userId := data_userId st |}, [])
  else mret (st, []).

Definition settle (e : effect) : completion (server * list emission) :=
  st' ← completed e; mret (st', emitted e).

(** A [register_push] event has no listener: it is ignored. *)
Definition handle (m : message) (st : server) : completion (server * list emission) :=
  match m with
  | Register s p => register s p st
  | RegisterPush _ _ => mret (st, [])
  | Call s p => settle (call s p st)
  | AcceptCall s p => settle (accept_call s p st)
  | RejectCall s p => settle (reject_call s p st)
  | EndCall s p => settle (end_call s p st)
  | Disconnect s => disconnect s st
  end.

Fixpoint run (ms : list message) (st : server) : completion (server * list emission) :=
  match ms with
  | [] => mret (st, [])
  | m :: ms' =>
      '(st1, out1) ← handle m st;
      '(st2, out2) ← run ms' st1;
      mret (st2, (out1 ++ out2)%list)
  end.

End Handlers.
End V1.

(** A message of the second revision, as the first one emits it. *)
Definition to_socket (e : emission) : V1.emission :=
  {| V1.dest := V1.ToSocket (room e); V1.event := event e; V1.payload := payload e |}.

Section Revisions.
Context {fmt : NumberFormat}.

(** The two revisions hold the same routing data: the same socket id under
    every key that is not an inherited name and the same remembered user
    ids, none of them an inherited name; and nothing is stored on
    [Object.prototype] in the second. *)
Definition same_routing (st1 : V1.server) (st2 : server) : Prop :=
  (∀ k, plain_key k = true → V1.clients st1 !! k = clients st2 !! k ≫= socketId)
  ∧ V1.data_userId st1 = data_userId st2
  ∧ (∀ s u, data_userId st2 !! s = Some u → plain_key (ToPropertyKey u) = true)
  ∧ pristine st2.

(** A payload whose [to], if it can be read, gives a key that is not an
    inherited name. *)
Definition plain_to (p : value) : bool :=
  match Get p "to" with
  | Normal to => plain_key (ToPropertyKey to)
  | Throw => true
  end.

(** A payload whose [from], if it can be read, has a string form. *)
Definition from_ok (p : value) : bool :=
  match Get p "from" with
  | Normal from => stringable from
  | Throw => true
  end.

(** The messages on which the revisions are compared: those the first
    revision listens to, with user ids that are not inherited names; a
    [reject_call], which only the second revision logs, with a [from] that
    has a string form. *)
Definition routable (m : message) : bool :=
  match m with
  | Register _ p => plain_userId p
  | RegisterPush _ _ => false
  | Call _ p | AcceptCall _ p | EndCall _ p => plain_to p
  | RejectCall _ p => plain_to p && from_ok p
  | Disconnect _ => true
  end.

End Revisions.

(* ===================================================================== *)
(** ** Properties *)
(* ===================================================================== *)

Ltac unfold_completion :=
  unfold mbind, completion_bind, mret, completion_ret, JS.bind in *.

Section Properties.
Context {fmt : NumberFormat} {builder : Agora.RtcTokenBuilder} {net : Push.Fetch}.

Implicit Types (st : server) (cl : gmap string client) (msg to : value).

(** *** Lookups and writes *)

Lemma truthy_id_Some (id : string) : id ≠ "" → truthy_id (Some id) = true.
Proof.
  intros Hne. unfold truthy_id.
  destruct (String.eqb_spec id ""); [contradiction | reflexivity].
Qed.

Lemma TryToString_Normal v :
  stringable v = true → TryToString v = Normal (ToString v).
Proof. intros Hs. unfold TryToString. by rewrite Hs. Qed.

Lemma TryToPropertyKey_Normal v :
  stringable v = true → TryToPropertyKey v = Normal (ToPropertyKey v).
Proof. intros Hs. unfold TryToPropertyKey. by rewrite Hs. Qed.

Lemma truthy_not_nullish (v : value) : ToBoolean v = true → nullish v = false.
Proof. by destruct v. Qed.

Lemma plain_key_spec k :
  plain_key k = true → String.eqb k "__proto__" = false ∧ is_inherited_method k = false.
Proof.
  unfold plain_key. intros [H1 H2]%andb_true_iff.
  by apply negb_true_iff in H1, H2.
Qed.

(** Under a plain key, with nothing on [Object.prototype], [clients[k]]
    is the own record or [undefined]. *)
Lemma clients_at_plain st k :
  plain_key k = true → pristine st →
  clients_at st k = match clients st !! k with Some c => Own c | None => Missing end.
Proof.
  intros [H1 H2]%plain_key_spec Hp. unfold clients_at.
  destruct (clients st !! k); [done|]. rewrite H1, H2, Hp. simpl.
  by destruct (String.eqb k "socketId"), (String.eqb k "pushToken").
Qed.

Lemma read_socketId_own st c :
  pristine st → read_socketId st (Own c) = socketId c.
Proof. intros Hp. simpl. rewrite Hp. by destruct (socketId c). Qed.

Lemma read_pushToken_own st c :
  pristine st → read_pushToken st (Own c) = pushToken c.
Proof. intros Hp. simpl. rewrite Hp. by destruct (pushToken c). Qed.

Lemma toSocket_plain st k :
  plain_key (ToPropertyKey k) = true → pristine st →
  toSocket st k = clients st !! ToPropertyKey k ≫= socketId.
Proof.
  intros Hk Hp. unfold toSocket, toClient. rewrite clients_at_plain by done.
  destruct (clients st !! _) as [c|]; [by apply read_socketId_own | done].
Qed.

Lemma toPushToken_plain st k :
  plain_key (ToPropertyKey k) = true → pristine st →
  toPushToken st k = clients st !! ToPropertyKey k ≫= pushToken.
Proof.
  intros Hk Hp. unfold toPushToken, toClient. rewrite clients_at_plain by done.
  destruct (clients st !! _) as [c|]; [by apply read_pushToken_own | done].
Qed.

Lemma alter_as_insert (f : client → client) k cl c :
  cl !! k = Some c → alter f k cl = <[k := f c]> cl.
Proof.
  intros Hk. apply map_eq. intros j. destruct (decide (k = j)) as [<-|Hne].
  - by rewrite lookup_alter_eq, lookup_insert_eq, Hk.
  - by rewrite lookup_alter_ne, lookup_insert_ne.
Qed.

(** [if (!clients[k]) clients[k] = {}; clients[k].x = ...] under a plain
    key: the own record of [k] is created if need be and changed. *)
Lemma upsert_plain (f : client → client) k st :
  plain_key k = true → pristine st →
  write f k (ensure_client k st)
  = Normal (with_clients st (<[k := f (default empty_client (clients st !! k))]> (clients st))).
Proof.
  intros Hk Hp. unfold ensure_client. rewrite clients_at_plain by done.
  destruct (clients st !! k) as [c|] eqn:Hc; simpl.
  - unfold write. rewrite clients_at_plain by done. rewrite Hc.
    by rewrite (alter_as_insert f k _ c).
  - unfold write. rewrite clients_at_plain by done. simpl.
    rewrite lookup_insert_eq. f_equal. unfold with_clients. simpl. f_equal.
    rewrite (alter_as_insert f k _ empty_client) by apply lookup_insert_eq.
    by rewrite insert_insert_eq.
Qed.

(** After [if (!clients[k]) clients[k] = {}] the write never throws. *)
Lemma write_ensure_total (f : client → client) k st :
  ∃ st1, write f k (ensure_client k st) = Normal st1.
Proof.
  unfold ensure_client.
  destruct (truthy_target (clients_at st k)) eqn:Ht.
  - unfold write. destruct (clients_at st k) as [c| |n|v|].
    + by eexists.
    + by eexists.
    + by eexists.
    + simpl in Ht. rewrite (truthy_not_nullish v Ht). by eexists.
    + discriminate.
  - unfold write, clients_at. simpl. rewrite lookup_insert_eq. by eexists.
Qed.

Lemma write_truthy_total (f : client → client) k st :
  truthy_target (clients_at st k) = true → ∃ st1, write f k st = Normal st1.
Proof.
  intros Ht. unfold write. destruct (clients_at st k) as [c| |n|v|].
  - by eexists.
  - by eexists.
  - by eexists.
  - simpl in Ht. rewrite (truthy_not_nullish v Ht). by eexists.
  - discriminate.
Qed.

Lemma write_keeps_data (f : client → client) k st st1 :
  write f k st = Normal st1 → data_userId st1 = data_userId st.
Proof.
  unfold write. destruct (clients_at st k) as [c| |n|v|];
    try destruct (nullish v); try discriminate; by intros [= <-].
Qed.

(** *** Routing *)

Lemma call_available socket msg st to id :
  Get msg "to" = Normal to → stringable to = true →
  toSocket st to = Some id → id ≠ "" →
  call socket msg st
  = {| emitted := [{| room := id; event := "incoming_call"; payload := msg |}];
       completed := from ← Get msg "from"; _ ← TryToString from; mret st |}.
Proof.
  intros Hto Hs Hid Hne. unfold call. rewrite Hto, (TryToPropertyKey_Normal _ Hs).
  unfold toSocket, toClient in Hid. rewrite Hid, (truthy_id_Some _ Hne). reflexivity.
Qed.

Lemma call_unavailable socket msg st to :
  Get msg "to" = Normal to → stringable to = true →
  truthy_id (toSocket st to) = false →
  call socket msg st
  = {| emitted := [{| room := socket; event := "callee_unavailable";
                      payload := VObject [("to", to)] |}];
       completed := Normal st |}.
Proof.
  intros Hto Hs Hid. unfold call. rewrite Hto, (TryToPropertyKey_Normal _ Hs).
  unfold toSocket, toClient in Hid. by rewrite Hid.
Qed.

Lemma forward_available out msg st to id :
  Get msg "to" = Normal to → stringable to = true →
  toSocket st to = Some id → id ≠ "" →
  forward out msg st
  = {| emitted := [{| room := id; event := out; payload := msg |}];
       completed := from ← Get msg "from"; _ ← TryToString from; mret st |}.
Proof.
  intros Hto Hs Hid Hne. unfold forward. rewrite Hto, (TryToPropertyKey_Normal _ Hs).
  unfold toSocket, toClient in Hid. rewrite Hid, (truthy_id_Some _ Hne). reflexivity.
Qed.

Lemma forward_dropped out msg st to :
  Get msg "to" = Normal to → stringable to = true →
  truthy_id (toSocket st to) = false →
  forward out msg st = {| emitted := []; completed := Normal st |}.
Proof.
  intros Hto Hs Hid. unfold forward. rewrite Hto, (TryToPropertyKey_Normal _ Hs).
  unfold toSocket, toClient in Hid. by rewrite Hid.
Qed.

(** The line logging [payload.from] completes when [from] has a string
    form. *)
Lemma log_from_Normal msg st from :
  Get msg "from" = Normal from → stringable from = true →
  (from ← Get msg "from"; _ ← TryToString from; mret st) = Normal st.
Proof.
  intros Hf Hs. rewrite Hf. unfold_completion. by rewrite (TryToString_Normal _ Hs).
Qed.

(** C4 (amended). With nothing stored on [Object.prototype], for a [call]
    whose payload can be read (it is not [null] or [undefined]) and whose
    [to] has a string form: when
    [clients[to]?.socketId] is a socket id, exactly one [incoming_call],
    carrying the payload as received, is emitted to it and nothing else (no
    notice to the originator), and the listener completes normally, the
    state unchanged, when [payload.from] has a string form too; when [to]
    has no live connection, exactly one [callee_unavailable {to}] is
    emitted to the originating socket, nothing is forwarded, and the
    listener completes normally with the state unchanged. *)
Theorem call_routes_exactly_once socket msg st to :
  pristine st → Get msg "to" = Normal to → stringable to = true →
  (∀ id, toSocket st to = Some id → id ≠ "" →
     emitted (call socket msg st)
     = [{| room := id; event := "incoming_call"; payload := msg |}]
     ∧ (∀ from, Get msg "from" = Normal from → stringable from = true →
          completed (call socket msg st) = Normal st))
  ∧ (truthy_id (toSocket st to) = false →
     call socket msg st
     = {| emitted := [{| room := socket; event := "callee_unavailable";
                         payload := VObject [("to", to)] |}];
          completed := Normal st |}).
Proof.
  intros _ Hto Hs. split.
  - intros id Hid Hne. rewrite (call_available socket msg st to id) by done.
    split; [reflexivity|]. intros from Hf Hfs. simpl. by apply (log_from_Normal _ _ from).
  - intros Hno. by apply call_unavailable.
Qed.

(** C6 (amended). With nothing stored on [Object.prototype],
    [accept_call], [reject_call] and [end_call], for a payload that can be
    read and whose [to] has a string form: when [to]
    resolves to a live connection the payload is forwarded to it, once, as
    [call_accepted], [call_rejected], [end_call], and the listener
    completes normally when [payload.from] has a string form; otherwise
    nothing at all is emitted, in particular nothing to the sender, and
    the listener completes normally.  The state is never changed. *)
Theorem accept_reject_end_forward_or_drop socket msg st to :
  pristine st → Get msg "to" = Normal to → stringable to = true →
  (∀ id, toSocket st to = Some id → id ≠ "" →
     (emitted (accept_call socket msg st)
      = [{| room := id; event := "call_accepted"; payload := msg |}]
      ∧ emitted (reject_call socket msg st)
        = [{| room := id; event := "call_rejected"; payload := msg |}]
      ∧ emitted (end_call socket msg st)
        = [{| room := id; event := "end_call"; payload := msg |}])
     ∧ (∀ from, Get msg "from" = Normal from → stringable from = true →
          completed (accept_call socket msg st) = Normal st
          ∧ completed (reject_call socket msg st) = Normal st
          ∧ completed (end_call socket msg st) = Normal st))
  ∧ (truthy_id (toSocket st to) = false →
     accept_call socket msg st = {| emitted := []; completed := Normal st |}
     ∧ reject_call socket msg st = {| emitted := []; completed := Normal st |}
     ∧ end_call socket msg st = {| emitted := []; completed := Normal st |}).
Proof.
  intros _ Hto Hs. unfold accept_call, reject_call, end_call. split.
  - intros id Hid Hne. rewrite !(forward_available _ msg st to id) by done.
    split; [by repeat split|]. intros from Hf Hfs. simpl.
    rewrite (log_from_Normal _ _ from) by done. by repeat split.
  - intros Hno. rewrite !(forward_dropped _ msg st to) by done. by repeat split.
Qed.

(** C9 (amended). With nothing stored on [Object.prototype], a [call]
    whose payload can be read (it is not [null] or [undefined]) and whose
    [to] has a string form and, turned into a property key, has no live
    connection does not throw and emits exactly
    one [callee_unavailable] to the originator, echoing [to].  A payload
    without a [to] field reads [to] as [undefined], which is looked up
    under the key ["undefined"]: the notice then carries [to: undefined]. *)
Theorem call_unresolved_notifies_originator socket msg st :
  pristine st →
  (∀ to, Get msg "to" = Normal to → stringable to = true →
     truthy_id (toSocket st to) = false →
     call socket msg st
     = {| emitted := [{| room := socket; event := "callee_unavailable";
                         payload := VObject [("to", to)] |}];
          completed := Normal st |})
  ∧ (∀ props, msg = VObject props → lookup_prop "to" props = VUndefined →
     truthy_id (read_socketId st (clients_at st "undefined")) = false →
     call socket msg st
     = {| emitted := [{| room := socket; event := "callee_unavailable";
                         payload := VObject [("to", VUndefined)] |}];
          completed := Normal st |}).
Proof.
  intros _. split.
  - intros to Hto Hs Hno. by apply call_unavailable.
  - intros props -> Hprop Hno. apply call_unavailable.
    + simpl. by rewrite Hprop.
    + reflexivity.
    + exact Hno.
Qed.

(** *** The registry *)

Lemma register_plain socket msg st u :
  Get msg "userId" = Normal u → stringable u = true → ToBoolean u = true →
  plain_key (ToPropertyKey u) = true → pristine st →
  register socket msg st = Normal (registered socket u st, []).
Proof.
  intros Hu Hs Ht Hk Hp. unfold register. rewrite Hu. unfold_completion.
  rewrite (TryToString_Normal _ Hs), Ht. simpl.
  by rewrite (upsert_plain _ _ _ Hk Hp).
Qed.

Lemma registered_pristine s u st : pristine st → pristine (registered s u st).
Proof. done. Qed.

Lemma registered_toSocket s u st :
  plain_key (ToPropertyKey u) = true → pristine st →
  toSocket (registered s u st) u = Some s.
Proof.
  intros Hk Hp. rewrite toSocket_plain by done. simpl.
  by rewrite lookup_insert_eq.
Qed.

Lemma registered_clients_at_ne s u st k :
  ToPropertyKey u ≠ k → clients_at (registered s u st) k = clients_at st k.
Proof.
  intros Hne. unfold clients_at. simpl. by rewrite lookup_insert_ne.
Qed.

Lemma disconnect_plain socket st u :
  data_userId st !! socket = Some u → stringable u = true → ToBoolean u = true →
  plain_key (ToPropertyKey u) = true → pristine st →
  disconnect socket st
  = Normal (with_clients st (alter delete_socketId (ToPropertyKey u) (clients st)), []).
Proof.
  intros Hu Hs Ht Hk Hp. unfold disconnect. rewrite Hu. simpl.
  unfold_completion. rewrite (TryToString_Normal _ Hs), Ht.
  unfold write. rewrite clients_at_plain by done.
  destruct (clients st !! ToPropertyKey u) as [c|] eqn:Hc; simpl; [done|].
  f_equal. f_equal. destruct st as [cl d p b]. unfold with_clients. simpl in *.
  f_equal. apply map_eq. intros j. destruct (decide (ToPropertyKey u = j)) as [<-|Hne].
  - by rewrite lookup_alter_eq, Hc.
  - by rewrite lookup_alter_ne.
Qed.

Lemma run_app ms1 ms2 st st1 out1 :
  run ms1 st = Normal (st1, out1) →
  run (ms1 ++ ms2) st
  = '(st2, out2) ← run ms2 st1; mret (st2, (out1 ++ out2)%list).
Proof.
  revert st st1 out1. induction ms1 as [|m ms1 IH]; intros st st1 out1 Hrun.
  - simpl in Hrun. injection Hrun as <- <-. simpl.
    unfold_completion. by destruct (run ms2 st) as [[? ?]|].
  - simpl in *. unfold_completion.
    destruct (handle m st) as [[sa oa]|]; [|discriminate].
    destruct (run ms1 sa) as [[sb ob]|] eqn:Hb; [|discriminate].
    injection Hrun as <- <-.
    rewrite (IH _ _ _ Hb). unfold_completion.
    destruct (run ms2 sb) as [[sc oc]|]; [|reflexivity].
    by rewrite app_assoc.
Qed.

Lemma run_registrations u calls st :
  ToBoolean u = true → stringable u = true →
  plain_key (ToPropertyKey u) = true → pristine st →
  Forall (λ c, Get c.2 "userId" = Normal u) calls →
  ∃ st', run (registrations calls) st = Normal (st', []) ∧ pristine st'.
Proof.
  intros Ht Hs Hk Hp Hall. revert st Hp.
  induction Hall as [|[s m] calls Hm _ IH]; intros st Hp.
  - exists st. by split.
  - simpl in Hm. destruct (IH (registered s u st) (registered_pristine s u st Hp))
      as (st' & Hrun & Hp').
    exists st'. simpl. rewrite (register_plain _ _ _ u) by done.
    unfold_completion. fold (registrations calls). by rewrite Hrun.
Qed.

(** C5 (amended). For a userId that is truthy, has a string form and whose
    key is not a name inherited from [Object.prototype], and from a state
    where nothing is stored on [Object.prototype]: after any sequence of
    [register] calls for that userId, ending with a call from socket
    [last], the registry resolves the userId to [last].  Each registration
    overwrites the single [socketId] field of the user's record, so the
    latest one wins. *)
Theorem register_last_write_wins u calls last msg st :
  ToBoolean u = true → stringable u = true →
  plain_key (ToPropertyKey u) = true → pristine st →
  Forall (λ c, Get c.2 "userId" = Normal u) (calls ++ [(last, msg)]) →
  ∃ st', run (registrations (calls ++ [(last, msg)])) st = Normal (st', [])
         ∧ toSocket st' u = Some last.
Proof.
  intros Ht Hs Hk Hp Hall. apply Forall_app in Hall as [Hcalls Hlast].
  rewrite Forall_singleton in Hlast. simpl in Hlast.
  destruct (run_registrations u calls st Ht Hs Hk Hp Hcalls) as (st1 & Hrun & Hp1).
  unfold registrations in *. rewrite map_app.
  rewrite (run_app _ _ _ _ _ Hrun). simpl.
  rewrite (register_plain _ _ _ u) by done. unfold_completion.
  eexists; split; [reflexivity|]. by apply registered_toSocket.
Qed.

(** C1 (amended). For a user id A that is truthy, has a string form and
    whose key is not a name inherited from [Object.prototype], and from a
    state where nothing is stored on [Object.prototype]: when C1 registers
    as A, then C2 registers as A, and C1 disconnects, A's live-connection
    entry is cleared.  The cleanup is keyed by the user id remembered on
    the disconnecting socket and does not look at the stored handle, so A
    resolves to no connection at all (not to C2).  What [clients] holds
    under every other key is left as it was. *)
Theorem stale_disconnect_clears_entry c1 c2 m1 m2 A st :
  Get m1 "userId" = Normal A → Get m2 "userId" = Normal A →
  ToBoolean A = true → stringable A = true →
  plain_key (ToPropertyKey A) = true → pristine st →
  ∃ st', run [Register c1 m1; Register c2 m2; Disconnect c1] st = Normal (st', [])
         ∧ toSocket st' A = None
         ∧ (∀ k, ToPropertyKey k ≠ ToPropertyKey A → toClient st' k = toClient st k).
Proof.
  intros Hm1 Hm2 Ht Hs Hk Hp. simpl.
  rewrite (register_plain _ _ _ A) by done. unfold_completion.
  rewrite (register_plain _ _ _ A) by done. simpl.
  rewrite (disconnect_plain _ _ A); try done.
  - eexists; split; [reflexivity|]. split.
    + rewrite toSocket_plain by done. simpl. rewrite lookup_alter_eq.
      by rewrite lookup_insert_eq.
    + intros k Hne. unfold toClient, clients_at. simpl.
      rewrite lookup_alter_ne by done. by rewrite !lookup_insert_ne.
  - simpl. destruct (decide (c2 = c1)) as [->|Hne].
    + by rewrite lookup_insert_eq.
    + rewrite lookup_insert_ne by done. by rewrite lookup_insert_eq.
Qed.

(** *** POST /sendPush *)

Lemma sendPush_with_token body st to from channel t :
  Get body "to" = Normal to → Get body "from" = Normal from →
  Get body "channel" = Normal channel →
  stringable to = true → stringable from = true → stringable channel = true →
  toPushToken st to = Some t → ToBoolean t = true → stringable t = true →
  sendPush body st
  = Normal (after_fetch (push_request t from channel),
            [push_request t from channel]).
Proof.
  intros Hto Hfrom Hch Hsto Hsf Hsc Htok Ht Hst.
  unfold sendPush, after_fetch, ok_response.
  rewrite Hto, Hfrom, Hch. unfold_completion.
  rewrite (TryToPropertyKey_Normal _ Hsto).
  unfold toPushToken, toClient in Htok. rewrite Htok. simpl. rewrite Ht. simpl.
  rewrite (TryToString_Normal _ Hst), (TryToString_Normal _ Hsf),
    (TryToString_Normal _ Hsc).
  destruct (Push.fetch _) as [|r]; [reflexivity|].
  destruct (Push.ok r); simpl; [reflexivity|].
  by destruct (Push.text r).
Qed.

Lemma sendPush_without_token body st to :
  Get body "to" = Normal to → stringable to = true →
  truthy_opt (toPushToken st to) = false →
  sendPush body st
  = Normal (error_response 400 "No push token for recipient", []).
Proof.
  intros Hto Hs Htok. unfold sendPush. rewrite Hto. unfold_completion.
  unfold toPushToken, toClient in Htok.
  destruct body; try discriminate; simpl;
    rewrite (TryToPropertyKey_Normal _ Hs); by rewrite Htok.
Qed.

Lemma sendPush_depends_on_token body st1 st2 :
  (∀ to, Get body "to" = Normal to → toPushToken st1 to = toPushToken st2 to) →
  sendPush body st1 = sendPush body st2.
Proof.
  intros Hsame. unfold sendPush.
  destruct (Get body "to") as [to|] eqn:Hto; [|reflexivity].
  unfold_completion. specialize (Hsame to eq_refl).
  unfold toPushToken, toClient in Hsame. unfold TryToPropertyKey.
  destruct (stringable to); [|reflexivity]. by rewrite Hsame.
Qed.

(** C7 (amended). For a socket that registered as a user [u] whose id is
    truthy, has a string form and whose key is not a name inherited from
    [Object.prototype], in a state where nothing is stored on
    [Object.prototype]: its disconnect clears the [socketId] of [u]'s
    record and nothing else.  Every push token on file stays as it was,
    what [clients] holds under every other key is untouched, and POST
    /sendPush answers after the disconnect exactly as it did before; in
    particular, for a user with a token on file whose delivery succeeds it
    still answers 200 [{ok: true}] (the request fields having a string
    form). *)
Theorem disconnect_keeps_push_token socket st u :
  data_userId st !! socket = Some u → ToBoolean u = true →
  stringable u = true → plain_key (ToPropertyKey u) = true → pristine st →
  ∃ st', disconnect socket st = Normal (st', [])
         ∧ toSocket st' u = None
         ∧ (∀ k, toPushToken st' k = toPushToken st k)
         ∧ (∀ k, ToPropertyKey k ≠ ToPropertyKey u → toClient st' k = toClient st k)
         ∧ (∀ body, sendPush body st' = sendPush body st)
         ∧ (∀ body from channel t r,
              Get body "to" = Normal u → Get body "from" = Normal from →
              Get body "channel" = Normal channel →
              stringable from = true → stringable channel = true →
              toPushToken st u = Some t → ToBoolean t = true → stringable t = true →
              Push.fetch (push_request t from channel) = Push.Resolved r →
              Push.ok r = true →
              sendPush body st'
              = Normal (ok_response, [push_request t from channel])).
Proof.
  intros Hu Ht Hs Hk Hp. rewrite (disconnect_plain _ _ u) by done.
  eexists; split; [reflexivity|].
  set (st' := with_clients st (alter delete_socketId (ToPropertyKey u) (clients st))).
  assert (Hpush : ∀ k, toPushToken st' k = toPushToken st k).
  { intros k. unfold toPushToken, toClient, clients_at, st'. simpl.
    destruct (decide (ToPropertyKey u = ToPropertyKey k)) as [<-|Hne].
    - rewrite lookup_alter_eq. by destruct (clients st !! ToPropertyKey u).
    - by rewrite lookup_alter_ne. }
  split; [|split; [|split; [|split]]].
  - rewrite toSocket_plain by done. unfold st'. simpl. rewrite lookup_alter_eq.
    by destruct (clients st !! _).
  - exact Hpush.
  - intros k Hne. unfold toClient, clients_at, st'. simpl.
    by rewrite lookup_alter_ne.
  - intros body. apply sendPush_depends_on_token. intros to _. apply Hpush.
  - intros body from channel t r Hto Hfrom Hch Hsf Hsc Htok Htt Hst Hfetch Hok.
    rewrite (sendPush_with_token body _ u from channel t); try done.
    + unfold after_fetch. by rewrite Hfetch, Hok.
    + by rewrite Hpush.
Qed.

(** The state after [register_push] from the empty registry. *)
Lemma register_push_initial socket u t :
  ToBoolean u = true → ToBoolean t = true →
  stringable u = true → stringable t = true →
  ∃ st', register_push socket (VObject [("userId", u); ("pushToken", t)]) initial
         = Normal (st', [])
         ∧ toSocket st' u = None
         ∧ toPushToken st' u = Some t.
Proof.
  intros Hu Ht Hsu Hst. unfold register_push. simpl. unfold_completion.
  rewrite (TryToString_Normal _ Hsu), (TryToString_Normal _ Hst), Hu, Ht. simpl.
  set (k := ToPropertyKey u).
  unfold ensure_client, write, toSocket, toPushToken, toClient. fold k.
  destruct (String.eqb k "__proto__") eqn:E1.
  { assert (Hat : ∀ st, clients st = ∅ → clients_at st k = ObjectPrototype).
    { intros st Hcl. unfold clients_at. by rewrite Hcl, lookup_empty, E1. }
    rewrite !(Hat initial eq_refl). simpl. rewrite (Hat initial eq_refl).
    eexists; split; [reflexivity|]. by rewrite Hat by reflexivity. }
  destruct (is_inherited_method k) eqn:E2.
  { assert (Hat : ∀ st, clients st = ∅ → clients_at st k = Method k).
    { intros st Hcl. unfold clients_at. by rewrite Hcl, lookup_empty, E1, E2. }
    rewrite !(Hat initial eq_refl). simpl. rewrite (Hat initial eq_refl).
    eexists; split; [reflexivity|]. rewrite Hat by reflexivity. simpl.
    by rewrite lookup_insert_eq. }
  assert (Hat : clients_at initial k = Missing).
  { unfold clients_at. simpl. rewrite lookup_empty, E1, E2.
    by destruct (String.eqb k "socketId"), (String.eqb k "pushToken"). }
  rewrite Hat. simpl. unfold clients_at. simpl. rewrite lookup_insert_eq.
  eexists; split; [reflexivity|]. simpl.
  by rewrite lookup_alter_eq, lookup_insert_eq.
Qed.

(** C10. The answer of POST /sendPush, and whether a push is submitted,
    depend on the registry only through the push token that
    [clients[to]?.pushToken] finds for [to]: two registries (with nothing
    stored on [Object.prototype]) that agree on it give the same result.
    So a push is submitted, once, even when [to] has a live connection,
    and it goes through for a user who only ever sent [register_push]
    (ids, token and request fields having a string form). *)
Theorem sendPush_ignores_live_connection :
  (∀ body st1 st2,
     pristine st1 → pristine st2 →
     (∀ to, Get body "to" = Normal to → toPushToken st1 to = toPushToken st2 to) →
     sendPush body st1 = sendPush body st2)
  ∧ (∀ body st to from channel t id,
       pristine st →
       Get body "to" = Normal to → Get body "from" = Normal from →
       Get body "channel" = Normal channel →
       stringable to = true → stringable from = true → stringable channel = true →
       toPushToken st to = Some t → ToBoolean t = true → stringable t = true →
       toSocket st to = Some id →
       sendPush body st
       = Normal (after_fetch (push_request t from channel),
                 [push_request t from channel]))
  ∧ (∀ socket u t from channel r,
       ToBoolean u = true → ToBoolean t = true →
       stringable u = true → stringable t = true →
       stringable from = true → stringable channel = true →
       Push.fetch (push_request t from channel) = Push.Resolved r →
       Push.ok r = true →
       ∃ st', register_push socket (VObject [("userId", u); ("pushToken", t)]) initial
              = Normal (st', [])
              ∧ toSocket st' u = None
              ∧ sendPush (VObject [("to", u); ("from", from); ("channel", channel)]) st'
                = Normal (ok_response, [push_request t from channel])).
Proof.
  split; [|split].
  - intros body st1 st2 _ _. apply sendPush_depends_on_token.
  - intros body st to from channel t id _ Hto Hfrom Hch Hsto Hsf Hsc Htok Ht Hst _.
    by apply (sendPush_with_token body st to).
  - intros socket u t from channel r Hu Ht Hsu Hst Hsf Hsc Hfetch Hok.
    destruct (register_push_initial socket u t Hu Ht Hsu Hst) as (st' & Hrun & Hsock & Htok).
    exists st'. split; [exact Hrun|]. split; [exact Hsock|].
    rewrite (sendPush_with_token _ _ u from channel t); try done.
    unfold after_fetch. by rewrite Hfetch, Hok.
Qed.

(** *** GET /rtcToken *)

Lemma rtcToken_valid env now q :
  ToBoolean (channelName q) = true → ToBoolean (uid q) = true →
  isFinite (ToNumber (uid q)) = true →
  rtcToken env now q
  = match Agora.buildTokenWithUid (APP_ID env) (APP_CERTIFICATE env)
            (channelName q) (ToNumber (uid q)) Agora.PUBLISHER
            (add (floor (div (of_Z now) (of_Z 1000)))
                 (parseInt10 (or_default (env_TOKEN_EXPIRE_S env) "3600"))) with
    | Normal token =>
        json_response (VObject [("rtcToken", VString token);
                                ("uid", VNumber (ToNumber (uid q)));
                                ("channelName", channelName q)])
    | Throw => error_response 500 "token_generation_failed"
    end.
Proof.
  intros Hc Hu Hfin. unfold rtcToken. by rewrite Hc, Hu, Hfin.
Qed.

Lemma rtcToken_not_numeric env now q :
  ToBoolean (channelName q) = true → ToBoolean (uid q) = true →
  isFinite (ToNumber (uid q)) = false →
  rtcToken env now q = error_response 400 "uid must be numeric".
Proof.
  intros Hc Hu Hfin. unfold rtcToken. by rewrite Hc, Hu, Hfin.
Qed.



End Properties.

(* ===================================================================== *)
(** ** Scenarios *)
(* ===================================================================== *)

Import Scenario.

(** Number() on a few query strings. *)
Example Number_examples :
  StringToNumber "42" = of_Z 42
  ∧ StringToNumber " 42 " = of_Z 42
  ∧ StringToNumber "1.5" = one_and_a_half
  ∧ StringToNumber "abc" = NaN
  ∧ StringToNumber "12px" = NaN
  ∧ StringToNumber "Infinity" = Infinity
  ∧ StringToNumber "1e400" = Infinity
  ∧ StringToNumber "0x1F" = of_Z 31.
Proof. vm_compute. by repeat split. Qed.

(** The expiry handed to the signing primitive at a concrete instant, with
    the default TTL. *)
Example expiry_example :
  add (floor (div (of_Z 1700000000999) (of_Z 1000)))
      (parseInt10 (or_default (env_TOKEN_EXPIRE_S no_env) "3600"))
  = of_Z 1700003600.
Proof. vm_compute. reflexivity. Qed.

(** A whole session: C1 registers as doctor; C2 registers as patient and
    leaves a push token; C2 calls the doctor, who accepts and then
    disconnects; the patient's [end_call] is dropped.  Two messages are
    emitted in all. *)
Example session_example :
  ∃ st', run (fmt := plain_format)
             [Register "C1" (userId_msg "doctor");
              Register "C2" (userId_msg "patient");
              RegisterPush "C2" (push_msg "patient" "ExponentPushToken[p]");
              Call "C2" (call_msg "doctor" "patient");
              AcceptCall "C1" (call_msg "patient" "doctor");
              Disconnect "C1";
              EndCall "C2" (call_msg "doctor" "patient")] initial
         = Normal (st', [{| room := "C1"; event := "incoming_call";
                            payload := call_msg "doctor" "patient" |};
                         {| room := "C2"; event := "call_accepted";
                            payload := call_msg "patient" "doctor" |}])
         ∧ toSocket (fmt := plain_format) st' (VString "doctor") = None
         ∧ toSocket (fmt := plain_format) st' (VString "patient") = Some "C2"
         ∧ toPushToken (fmt := plain_format) st' (VString "patient")
           = Some (VString "ExponentPushToken[p]").
Proof.
  eexists. split; [vm_compute; reflexivity|]. by vm_compute.
Qed.

(** C1, counterexample. C1 registers as A, C2 registers as A, C1
    disconnects: A no longer resolves to C2. *)
Lemma stale_disconnect_clobbers_newer_registration :
  ∃ st', run (fmt := plain_format)
             [Register "C1" (userId_msg "A"); Register "C2" (userId_msg "A");
              Disconnect "C1"] initial = Normal (st', [])
         ∧ toSocket (fmt := plain_format) st' (VString "A") = None
         ∧ toSocket (fmt := plain_format) st' (VString "A") ≠ Some "C2".
Proof.
  eexists. split; [reflexivity|]. split; [by vm_compute | by vm_compute].
Qed.

Lemma stale_disconnect_clears_entry_witness :
  Get (userId_msg "A") "userId" = Normal (VString "A")
  ∧ ToBoolean (VString "A") = true
  ∧ plain_key (ToPropertyKey (fmt := plain_format) (VString "A")) = true
  ∧ pristine doctor_online
  ∧ ∃ st', run (fmt := plain_format)
               [Register "C1" (userId_msg "A"); Register "C2" (userId_msg "A");
                Disconnect "C1"] doctor_online = Normal (st', [])
           ∧ toSocket (fmt := plain_format) st' (VString "A") = None
           ∧ (∀ k, ToPropertyKey (fmt := plain_format) k ≠ "A" →
                   toClient (fmt := plain_format) st' k
                   = toClient (fmt := plain_format) doctor_online k).
Proof.
  split; [reflexivity|]. split; [reflexivity|]. split; [reflexivity|].
  split; [reflexivity|].
  apply (stale_disconnect_clears_entry (fmt := plain_format)
           "C1" "C2" (userId_msg "A") (userId_msg "A") (VString "A") doctor_online);
    reflexivity.
Defined.

(** C2. The provider answers the push with a non-success status (400): the
    route logs the failure and still answers 200 [{ok: true}]. *)
Lemma sendPush_answers_ok_when_provider_refuses :
  sendPush (fmt := plain_format) (net := provider_refuses)
           (call_msg "doctor" "patient") doctor_with_token
  = Normal ({| res_status := 200; res_json := VObject [("ok", VBoolean true)] |},
            [push_request (fmt := plain_format) (VString "ExponentPushToken[x]")
                          (VString "patient") (VString "room1")]).
Proof. vm_compute. reflexivity. Qed.



(** C4, counterexample. A [call] without payload, and a [call] whose [to]
    is an object with an own [toString] property, throw before anything is
    emitted: neither [incoming_call] nor [callee_unavailable] is sent. *)
Lemma call_can_throw_without_emitting :
  call (fmt := plain_format) "c2" VNull doctor_online
  = {| emitted := []; completed := Throw |}
  ∧ call (fmt := plain_format) "c2" (VObject [("to", no_string_form)]) doctor_online
    = {| emitted := []; completed := Throw |}.
Proof. split; reflexivity. Qed.

Lemma call_routes_exactly_once_witness :
  (emitted (call (fmt := plain_format) "c2" (call_msg "doctor" "patient") doctor_online)
   = [{| room := "c1"; event := "incoming_call";
         payload := call_msg "doctor" "patient" |}]
   ∧ completed (call (fmt := plain_format) "c2" (call_msg "doctor" "patient") doctor_online)
     = Normal doctor_online)
  ∧ call (fmt := plain_format) "c2" (call_msg "nurse" "patient") doctor_online
    = {| emitted := [{| room := "c2"; event := "callee_unavailable";
                        payload := VObject [("to", VString "nurse")] |}];
         completed := Normal doctor_online |}.
Proof.
  split.
  - destruct (proj1 (call_routes_exactly_once (fmt := plain_format) "c2"
                       (call_msg "doctor" "patient") doctor_online (VString "doctor")
                       eq_refl eq_refl eq_refl) "c1") as [Hout Hdone].
    + vm_compute. reflexivity.
    + discriminate.
    + split; [exact Hout|]. apply (Hdone (VString "patient")); reflexivity.
  - apply (proj2 (call_routes_exactly_once (fmt := plain_format) "c2"
                    (call_msg "nurse" "patient") doctor_online (VString "nurse")
                    eq_refl eq_refl eq_refl)).
    vm_compute. reflexivity.
Defined.

(** C5, counterexample. Socket P registers as [__proto__], which puts its
    id on [Object.prototype]; two sockets then register as [socketId]: the
    registrations are written on the inherited string and lost, and the
    user id resolves to P, not to the last socket. *)
Lemma inherited_key_defeats_last_write_wins :
  ∃ st', run (fmt := plain_format)
             [Register "P" (userId_msg "__proto__");
              Register "C1" (userId_msg "socketId");
              Register "C2" (userId_msg "socketId")] initial = Normal (st', [])
         ∧ toSocket (fmt := plain_format) st' (VString "socketId") = Some "P".
Proof.
  eexists. split; [vm_compute; reflexivity|]. vm_compute. reflexivity.
Qed.

Lemma register_last_write_wins_witness :
  ToBoolean (VString "A") = true
  ∧ plain_key (ToPropertyKey (fmt := plain_format) (VString "A")) = true
  ∧ pristine initial
  ∧ Forall (λ c : string * value, Get c.2 "userId" = Normal (VString "A"))
           ([("c1", userId_msg "A"); ("c2", userId_msg "A")] ++ [("c3", userId_msg "A")])
  ∧ ∃ st', run (fmt := plain_format)
               (registrations ([("c1", userId_msg "A"); ("c2", userId_msg "A")]
                               ++ [("c3", userId_msg "A")])) initial
           = Normal (st', [])
           ∧ toSocket (fmt := plain_format) st' (VString "A") = Some "c3".
Proof.
  assert (Hall : Forall (λ c : string * value, Get c.2 "userId" = Normal (VString "A"))
                   ([("c1", userId_msg "A"); ("c2", userId_msg "A")]
                    ++ [("c3", userId_msg "A")])).
  { simpl. repeat constructor. }
  split; [reflexivity|]. split; [reflexivity|]. split; [reflexivity|].
  split; [exact Hall|].
  exact (register_last_write_wins (fmt := plain_format) (VString "A")
           [("c1", userId_msg "A"); ("c2", userId_msg "A")] "c3" (userId_msg "A")
           initial eq_refl eq_refl eq_refl eq_refl Hall).
Defined.

(** C6, counterexample. An [accept_call] without payload, and an
    [end_call] whose [to] is an object with an own [toString] property, are
    not dropped: the listener throws.  A [reject_call] that is forwarded
    throws after the forward when [from] has no string form. *)
Lemma forwarding_listeners_can_throw :
  accept_call (fmt := plain_format) "c2" VNull doctor_online
  = {| emitted := []; completed := Throw |}
  ∧ end_call (fmt := plain_format) "c2" (VObject [("to", no_string_form)]) doctor_online
    = {| emitted := []; completed := Throw |}
  ∧ reject_call (fmt := plain_format) "c2"
      (VObject [("to", VString "doctor"); ("from", no_string_form)]) doctor_online
    = {| emitted := [{| room := "c1"; event := "call_rejected";
                        payload := VObject [("to", VString "doctor");
                                            ("from", no_string_form)] |}];
         completed := Throw |}.
Proof. split; [reflexivity|]. split; [reflexivity|]. vm_compute. reflexivity. Qed.

Lemma accept_reject_end_forward_or_drop_witness :
  (emitted (accept_call (fmt := plain_format) "c2" (call_msg "doctor" "patient") doctor_online)
   = [{| room := "c1"; event := "call_accepted";
         payload := call_msg "doctor" "patient" |}]
   ∧ completed (accept_call (fmt := plain_format) "c2" (call_msg "doctor" "patient")
                  doctor_online)
     = Normal doctor_online)
  ∧ end_call (fmt := plain_format) "c2" (call_msg "nurse" "patient") doctor_online
    = {| emitted := []; completed := Normal doctor_online |}.
Proof.
  split.
  - destruct (proj1 (accept_reject_end_forward_or_drop (fmt := plain_format) "c2"
                       (call_msg "doctor" "patient") doctor_online (VString "doctor")
                       eq_refl eq_refl eq_refl) "c1") as [(Hout & _ & _) Hdone].
    + vm_compute. reflexivity.
    + discriminate.
    + split; [exact Hout|].
      apply (Hdone (VString "patient")); reflexivity.
  - apply (proj2 (accept_reject_end_forward_or_drop (fmt := plain_format) "c2"
                    (call_msg "nurse" "patient") doctor_online (VString "nurse")
                    eq_refl eq_refl eq_refl)).
    vm_compute. reflexivity.
Defined.

(** C7, counterexample. Bob only left a push token; socket C1 registers as
    [__proto__], so its id sits on [Object.prototype] and Bob, whose record
    has no [socketId] of its own, resolves to C1.  The disconnect of C1
    deletes the property of [Object.prototype]: the live connection of
    Bob, another user, is gone too.  In the second run Alice's socket
    disconnects and Alice still resolves, to the socket P. *)
Lemma disconnect_can_reach_other_users :
  (∃ st st',
      run (fmt := plain_format)
          [RegisterPush "C0" (push_msg "bob" "tok");
           Register "C1" (userId_msg "__proto__")] initial = Normal (st, [])
      ∧ toSocket (fmt := plain_format) st (VString "bob") = Some "C1"
      ∧ disconnect (fmt := plain_format) "C1" st = Normal (st', [])
      ∧ toSocket (fmt := plain_format) st' (VString "bob") = None)
  ∧ (∃ st',
        run (fmt := plain_format)
            [Register "P" (userId_msg "__proto__");
             Register "C1" (userId_msg "alice");
             Disconnect "C1"] initial = Normal (st', [])
        ∧ toSocket (fmt := plain_format) st' (VString "alice") = Some "P").
Proof.
  split.
  - eexists _, _. split; [vm_compute; reflexivity|].
    split; [vm_compute; reflexivity|].
    split; [vm_compute; reflexivity|]. vm_compute. reflexivity.
  - eexists. split; [vm_compute; reflexivity|]. vm_compute. reflexivity.
Qed.

Lemma disconnect_keeps_push_token_witness :
  data_userId doctor_with_token !! "c1" = Some (VString "doctor")
  ∧ ToBoolean (VString "doctor") = true
  ∧ plain_key (ToPropertyKey (fmt := plain_format) (VString "doctor")) = true
  ∧ pristine doctor_with_token
  ∧ ∃ st', disconnect (fmt := plain_format) "c1" doctor_with_token = Normal (st', [])
           ∧ toSocket (fmt := plain_format) st' (VString "doctor") = None
           ∧ toPushToken (fmt := plain_format) st' (VString "doctor")
             = Some (VString "ExponentPushToken[x]")
           ∧ sendPush (fmt := plain_format) (net := provider_accepts)
                      (call_msg "doctor" "patient") st'
             = Normal (ok_response,
                       [push_request (fmt := plain_format) (VString "ExponentPushToken[x]")
                                     (VString "patient") (VString "room1")]).
Proof.
  assert (Hdata : data_userId doctor_with_token !! "c1" = Some (VString "doctor"))
    by (vm_compute; reflexivity).
  split; [exact Hdata|]. split; [reflexivity|].
  split; [reflexivity|]. split; [reflexivity|].
  destruct (disconnect_keeps_push_token (fmt := plain_format) (net := provider_accepts)
              "c1" doctor_with_token (VString "doctor") Hdata eq_refl eq_refl eq_refl
              eq_refl)
    as (st' & Hrun & Hsock & Hpush & _ & _ & Hsend).
  exists st'. split; [exact Hrun|]. split; [exact Hsock|]. split.
  - rewrite Hpush. vm_compute. reflexivity.
  - apply (Hsend (call_msg "doctor" "patient") (VString "patient") (VString "room1")
             (VString "ExponentPushToken[x]")
             {| Push.ok := true; Push.status := 200; Push.text := Normal "{}" |});
      reflexivity.
Defined.


(** C9, counterexample. A user registered under the id ["undefined"]
    receives the [call] whose payload has no [to] field, and no
    [callee_unavailable] is emitted; a [call] with a [null] payload
    throws, and so does a [call] whose [to] has no string form. *)
Lemma call_without_to_can_be_forwarded :
  (∃ st, register (fmt := plain_format) "c1" (userId_msg "undefined") initial
         = Normal (st, [])
         ∧ call (fmt := plain_format) "c2" (VObject [("from", VString "patient")]) st
           = {| emitted := [{| room := "c1"; event := "incoming_call";
                               payload := VObject [("from", VString "patient")] |}];
                completed := Normal st |})
  ∧ completed (call (fmt := plain_format) "c2" VNull initial) = Throw
  ∧ completed (call (fmt := plain_format) "c2" (VObject [("to", no_string_form)]) initial)
    = Throw.
Proof.
  split; [|split; reflexivity].
  eexists. split; [vm_compute; reflexivity|]. vm_compute. reflexivity.
Qed.

Lemma call_unresolved_notifies_originator_witness :
  call (fmt := plain_format) "c2" (call_msg "nurse" "patient") doctor_online
  = {| emitted := [{| room := "c2"; event := "callee_unavailable";
                      payload := VObject [("to", VString "nurse")] |}];
       completed := Normal doctor_online |}
  ∧ call (fmt := plain_format) "c2" (VObject [("from", VString "patient")]) doctor_online
    = {| emitted := [{| room := "c2"; event := "callee_unavailable";
                        payload := VObject [("to", VUndefined)] |}];
         completed := Normal doctor_online |}.
Proof.
  split.
  - apply (proj1 (call_unresolved_notifies_originator (fmt := plain_format) "c2"
                    (call_msg "nurse" "patient") doctor_online eq_refl)
             (VString "nurse")).
    + reflexivity.
    + reflexivity.
    + vm_compute. reflexivity.
  - apply (proj2 (call_unresolved_notifies_originator (fmt := plain_format) "c2"
                    (VObject [("from", VString "patient")]) doctor_online eq_refl)
             [("from", VString "patient")]).
    + reflexivity.
    + reflexivity.
    + vm_compute. reflexivity.
Defined.

Lemma sendPush_ignores_live_connection_witness :
  sendPush (fmt := plain_format) (net := provider_accepts)
           (call_msg "doctor" "patient") doctor_with_token
  = sendPush (fmt := plain_format) (net := provider_accepts)
             (call_msg "doctor" "patient") doctor_offline
  ∧ sendPush (fmt := plain_format) (net := provider_accepts)
             (call_msg "doctor" "patient") doctor_with_token
    = Normal (after_fetch (net := provider_accepts)
                (push_request (fmt := plain_format) (VString "ExponentPushToken[x]")
                              (VString "patient") (VString "room1")),
              [push_request (fmt := plain_format) (VString "ExponentPushToken[x]")
                            (VString "patient") (VString "room1")])
  ∧ ∃ st', register_push (fmt := plain_format) "c1"
             (VObject [("userId", VString "doctor");
                       ("pushToken", VString "ExponentPushToken[x]")]) initial
           = Normal (st', [])
           ∧ toSocket (fmt := plain_format) st' (VString "doctor") = None
           ∧ sendPush (fmt := plain_format) (net := provider_accepts)
                      (VObject [("to", VString "doctor"); ("from", VString "patient");
                                ("channel", VString "room1")]) st'
             = Normal (ok_response,
                       [push_request (fmt := plain_format) (VString "ExponentPushToken[x]")
                                     (VString "patient") (VString "room1")]).
Proof.
  pose proof (sendPush_ignores_live_connection (fmt := plain_format)
                (net := provider_accepts)) as (Hsame & Hlive & Honly).
  split; [|split].
  - apply Hsame; [reflexivity|reflexivity|].
    intros to Hto. simpl in Hto. injection Hto as <-.
    vm_compute. reflexivity.
  - apply (Hlive _ _ (VString "doctor") _ _ _ "c1"); reflexivity.
  - apply (Honly "c1" (VString "doctor") (VString "ExponentPushToken[x]")
             (VString "patient") (VString "room1")
             {| Push.ok := true; Push.status := 200; Push.text := Normal "{}" |});
      reflexivity.
Defined.

(* ===================================================================== *)
(** ** Further properties of the file *)
(* ===================================================================== *)

Section Further.
Context {fmt : NumberFormat} {builder : Agora.RtcTokenBuilder} {net : Push.Fetch}.

Implicit Types (st : server) (cl : gmap string client) (msg to : value).

(** *** Start-up *)

Lemma or_default_nonempty x d : d ≠ "" → or_default x d ≠ "".
Proof.
  intros Hd. destruct x as [s|]; simpl; [|exact Hd].
  destruct (String.eqb_spec s ""); [exact Hd | assumption].
Qed.

Lemma ToBoolean_nonempty (s : string) : s ≠ "" → ToBoolean (VString s) = true.
Proof.
  intros Hs. simpl. destruct (String.eqb_spec s ""); [contradiction | reflexivity].
Qed.

(** X1. The start-up test on APP_ID and APP_CERTIFICATE can never make the
    process exit: whatever the environment holds (variables unset, or set
    to the empty string), both constants fall back to the built-in values
    and are non-empty. *)
Theorem startup_check_never_exits env : exits_at_startup env = false.
Proof.
  unfold exits_at_startup, APP_ID, APP_CERTIFICATE.
  rewrite !ToBoolean_nonempty; [reflexivity | |];
    apply or_default_nonempty; discriminate.
Qed.

(** *** Writing twice *)

Lemma clients_at_Own st k c : clients st !! k = Some c → clients_at st k = Own c.
Proof. intros Hk. unfold clients_at. by rewrite Hk. Qed.

Lemma clients_at_ObjectPrototype_inv st k :
  clients_at st k = ObjectPrototype →
  clients st !! k = None ∧ String.eqb k "__proto__" = true.
Proof.
  unfold clients_at. destruct (clients st !! k); [discriminate|].
  destruct (String.eqb k "__proto__"); [done|].
  destruct (is_inherited_method k); [discriminate|].
  destruct (String.eqb k "socketId"); [by destruct (socketId _)|].
  destruct (String.eqb k "pushToken"); [by destruct (pushToken _)|discriminate].
Qed.

Lemma clients_at_Method_inv st k n :
  clients_at st k = Method n →
  clients st !! k = None ∧ String.eqb k "__proto__" = false
  ∧ is_inherited_method k = true ∧ n = k.
Proof.
  unfold clients_at. destruct (clients st !! k); [discriminate|].
  destruct (String.eqb k "__proto__"); [discriminate|].
  destruct (is_inherited_method k); [by intros [= <-]|].
  destruct (String.eqb k "socketId"); [by destruct (socketId _)|].
  destruct (String.eqb k "pushToken"); [by destruct (pushToken _)|discriminate].
Qed.

Lemma clients_at_Own_inv st k c : clients_at st k = Own c → clients st !! k = Some c.
Proof.
  unfold clients_at. destruct (clients st !! k); [by intros [= <-]|].
  destruct (String.eqb k "__proto__"); [discriminate|].
  destruct (is_inherited_method k); [discriminate|].
  destruct (String.eqb k "socketId"); [by destruct (socketId _)|].
  destruct (String.eqb k "pushToken"); [by destruct (pushToken _)|discriminate].
Qed.

Lemma ensure_client_truthy k st :
  truthy_target (clients_at (ensure_client k st) k) = true.
Proof.
  unfold ensure_client. destruct (truthy_target (clients_at st k)) eqn:Ht; [done|].
  unfold clients_at. simpl. by rewrite lookup_insert_eq.
Qed.

Lemma alter_twice (f : client → client) k cl :
  (∀ c, f (f c) = f c) → alter f k (alter f k cl) = alter f k cl.
Proof.
  intros Hf. apply map_eq. intros j. destruct (decide (k = j)) as [<-|Hne].
  - rewrite !lookup_alter_eq. destruct (cl !! k); simpl; [by rewrite Hf|done].
  - by rewrite !lookup_alter_ne.
Qed.

(** Writing the same change again, under the same key, changes nothing
    more. *)
Lemma write_twice (f : client → client) k st st1 :
  (∀ c, f (f c) = f c) →
  truthy_target (clients_at st k) = true →
  write f k st = Normal st1 →
  truthy_target (clients_at st1 k) = true ∧ write f k st1 = Normal st1.
Proof.
  intros Hf Ht. unfold write at 1.
  destruct (clients_at st k) as [c| |n|v|] eqn:Hat.
  - intros [= <-]. apply clients_at_Own_inv in Hat.
    assert (Hat' : clients_at (with_clients st (alter f k (clients st))) k = Own (f c)).
    { apply clients_at_Own. simpl. by rewrite lookup_alter_eq, Hat. }
    split; [by rewrite Hat'|]. unfold write. rewrite Hat'.
    unfold with_clients. simpl. by rewrite alter_twice.
  - intros [= <-]. apply clients_at_ObjectPrototype_inv in Hat as [Hk He].
    assert (Hat' : clients_at (with_prototype st (f (prototype st))) k = ObjectPrototype).
    { unfold clients_at. simpl. by rewrite Hk, He. }
    split; [by rewrite Hat'|]. unfold write. rewrite Hat'.
    unfold with_prototype. simpl. by rewrite Hf.
  - intros [= <-]. apply clients_at_Method_inv in Hat as (Hk & He & Hm & ->).
    set (st1 := with_builtins st _).
    assert (Hat' : clients_at st1 k = Method k).
    { unfold clients_at. simpl. by rewrite Hk, He, Hm. }
    split; [by rewrite Hat'|]. unfold write. rewrite Hat'.
    unfold st1, with_builtins. simpl.
    rewrite lookup_insert_eq. simpl. by rewrite Hf, insert_insert_eq.
  - simpl in Ht. rewrite (truthy_not_nullish v Ht). intros [= <-].
    split; [by rewrite Hat|]. unfold write. by rewrite Hat, (truthy_not_nullish v Ht).
  - discriminate.
Qed.

Lemma delete_socketId_twice c : delete_socketId (delete_socketId c) = delete_socketId c.
Proof. done. Qed.

Lemma set_socketId_twice s c : set_socketId s (set_socketId s c) = set_socketId s c.
Proof. done. Qed.

Lemma set_pushToken_twice t c : set_pushToken t (set_pushToken t c) = set_pushToken t c.
Proof. done. Qed.

(** X5. A [disconnect] of a socket that never registered changes nothing,
    and a second [disconnect] of the same socket changes nothing more than
    the first. *)
Theorem disconnect_unregistered_or_repeated socket st :
  (data_userId st !! socket = None → disconnect socket st = Normal (st, []))
  ∧ run [Disconnect socket; Disconnect socket] st = run [Disconnect socket] st.
Proof.
  split.
  - intros Hnone. unfold disconnect. by rewrite Hnone.
  - simpl. unfold disconnect.
    set (uid := default VUndefined (data_userId st !! socket)).
    destruct (TryToString uid) as [s|] eqn:Hs; unfold_completion; [|reflexivity].
    destruct (ToBoolean uid) eqn:Hb.
    + destruct (truthy_target (clients_at st (ToPropertyKey uid))) eqn:Ht.
      * destruct (write_truthy_total delete_socketId _ st Ht) as [st1 Hw].
        rewrite Hw. simpl.
        rewrite (write_keeps_data _ _ _ _ Hw). fold uid. rewrite Hs, Hb.
        destruct (write_twice delete_socketId _ st st1 delete_socketId_twice Ht Hw)
          as [Ht1 Hw1].
        by rewrite Ht1, Hw1.
      * simpl. fold uid. by rewrite Hs, Hb, Ht.
    + simpl. fold uid. by rewrite Hs, Hb.
Qed.

Lemma clients_at_with_data st d k :
  clients_at (with_data_userId st d) k = clients_at st k.
Proof. done. Qed.

Lemma ensure_with_data st d k :
  ensure_client k (with_data_userId st d) = with_data_userId (ensure_client k st) d.
Proof.
  unfold ensure_client. rewrite clients_at_with_data.
  by destruct (truthy_target (clients_at st k)).
Qed.

Lemma write_with_data (f : client → client) st d k st1 :
  write f k st = Normal st1 →
  write f k (with_data_userId st d) = Normal (with_data_userId st1 d).
Proof.
  unfold write. rewrite clients_at_with_data.
  destruct (clients_at st k) as [c| |n|v|];
    try destruct (nullish v); try discriminate; by intros [= <-].
Qed.

Lemma ensure_client_id k st :
  truthy_target (clients_at st k) = true → ensure_client k st = st.
Proof. intros Ht. unfold ensure_client. by rewrite Ht. Qed.

(** [if (!clients[k]) clients[k] = {}; clients[k].x = ...], done again. *)
Lemma upsert_twice (f : client → client) k st st1 :
  (∀ c, f (f c) = f c) →
  write f k (ensure_client k st) = Normal st1 →
  write f k (ensure_client k st1) = Normal st1.
Proof.
  intros Hf Hw.
  destruct (write_twice f k _ st1 Hf (ensure_client_truthy k st) Hw) as [Ht Hw1].
  by rewrite (ensure_client_id _ _ Ht).
Qed.

(** After [clients[k].pushToken = t] a payload reads the same token as
    before: its own, or the inherited one, which can only have become [t]. *)
Lemma Get_pushToken_after_write t k st st1 msg :
  Get_pushToken st msg = Normal t →
  write (set_pushToken t) k (ensure_client k st) = Normal st1 →
  Get_pushToken st1 msg = Normal t.
Proof.
  intros Hg. unfold write.
  assert (Hens : prototype (ensure_client k st) = prototype st).
  { unfold ensure_client. by destruct (truthy_target _). }
  destruct (clients_at (ensure_client k st) k) as [c| |n|v|];
    try destruct (nullish v); try discriminate; intros [= <-];
    unfold Get_pushToken in *; simpl; rewrite ?Hens; try exact Hg.
  destruct msg; try done. by destruct (has_prop "pushToken" props).
Qed.

(** X6. [register] and [register_push] are idempotent: handling the same
    event twice in a row, from the same socket, leaves the state the first
    one left. *)
Theorem registrations_are_idempotent socket msg st :
  run [Register socket msg; Register socket msg] st = run [Register socket msg] st
  ∧ run [RegisterPush socket msg; RegisterPush socket msg] st
    = run [RegisterPush socket msg] st.
Proof.
  split; simpl.
  - unfold register. destruct (Get msg "userId") as [u|]; [|reflexivity].
    unfold_completion. destruct (TryToString u) as [s|]; [|reflexivity].
    destruct (ToBoolean u) eqn:Ht; simpl; rewrite ?Ht; simpl; [|reflexivity].
    destruct (write_ensure_total (set_socketId socket) (ToPropertyKey u) st)
      as [st1 Hw].
    rewrite Hw. rewrite ensure_with_data.
    rewrite (write_with_data _ _ _ _ _
               (upsert_twice _ _ _ _ (set_socketId_twice socket) Hw)).
    simpl. by rewrite insert_insert_eq.
  - unfold register_push. destruct (Get msg "userId") as [u|]; [|reflexivity].
    destruct (Get_pushToken st msg) as [t|] eqn:Hg; [|reflexivity].
    unfold_completion. destruct (TryToString u) as [s|]; [|reflexivity].
    destruct (TryToString t) as [s'|] eqn:Hs'; [|reflexivity].
    destruct (negb (ToBoolean u) || negb (ToBoolean t)) eqn:Ht; simpl;
      rewrite ?Hg, ?Hs', ?Ht; simpl; [reflexivity|].
    destruct (write_ensure_total (set_pushToken t) (ToPropertyKey u) st)
      as [st1 Hw].
    rewrite Hw. rewrite (Get_pushToken_after_write t _ st st1 msg Hg Hw).
    rewrite Hs', Ht.
    by rewrite (upsert_twice _ _ _ _ (set_pushToken_twice t) Hw).
Qed.

(** *** What is emitted, and to whom *)

Lemma settle_Normal (e : effect) st' out :
  settle e = Normal (st', out) → completed e = Normal st' ∧ emitted e = out.
Proof.
  unfold settle. destruct (completed e) as [s|]; unfold_completion; [|discriminate].
  by intros [= <- <-].
Qed.

Lemma log_from_state msg st st' :
  (from ← Get msg "from"; _ ← TryToString from; mret st) = Normal st' → st' = st.
Proof.
  destruct (Get msg "from") as [from|]; unfold_completion; [|discriminate].
  destruct (TryToString from); [|discriminate]. by intros [= <-].
Qed.

Lemma call_shape socket msg st st' :
  completed (call socket msg st) = Normal st' →
  st' = st
  ∧ ∃ to, Get msg "to" = Normal to ∧ stringable to = true
          ∧ ((truthy_id (toSocket st to) = true
              ∧ emitted (call socket msg st)
                = [{| room := default "" (toSocket st to); event := "incoming_call";
                      payload := msg |}])
             ∨ (truthy_id (toSocket st to) = false
                ∧ emitted (call socket msg st)
                  = [{| room := socket; event := "callee_unavailable";
                        payload := VObject [("to", to)] |}])).
Proof.
  unfold call, toSocket, toClient, TryToPropertyKey.
  destruct (Get msg "to") as [to|]; [|discriminate].
  destruct (stringable to) eqn:Hs; [|discriminate].
  destruct (truthy_id _) eqn:Hid; simpl.
  - intros ->%log_from_state. split; [done|]. exists to. repeat split; try done. by left.
  - intros [= <-]. split; [done|]. exists to. repeat split; try done. by right.
Qed.

Lemma forward_shape name msg st st' :
  completed (forward name msg st) = Normal st' →
  st' = st
  ∧ ∃ to, Get msg "to" = Normal to ∧ stringable to = true
          ∧ ((truthy_id (toSocket st to) = true
              ∧ emitted (forward name msg st)
                = [{| room := default "" (toSocket st to); event := name;
                      payload := msg |}])
             ∨ (truthy_id (toSocket st to) = false
                ∧ emitted (forward name msg st) = [])).
Proof.
  unfold forward, toSocket, toClient, TryToPropertyKey.
  destruct (Get msg "to") as [to|]; [|discriminate].
  destruct (stringable to) eqn:Hs; [|discriminate].
  destruct (truthy_id _) eqn:Hid; simpl.
  - intros ->%log_from_state. split; [done|]. exists to. repeat split; try done. by left.
  - intros [= <-]. split; [done|]. exists to. repeat split; try done. by right.
Qed.

Lemma truthy_id_default (o : option string) :
  truthy_id o = true → o = Some (default "" o).
Proof. by destruct o. Qed.

Lemma register_emits_nothing s p st st' out :
  register s p st = Normal (st', out) → out = [].
Proof.
  unfold register. destruct (Get p "userId") as [u|]; unfold_completion; [|discriminate].
  destruct (TryToString u); [|discriminate].
  destruct (negb (ToBoolean u)); [by intros [= _ <-]|].
  destruct (write _ _ _); [by intros [= _ <-] | discriminate].
Qed.

Lemma register_push_emits_nothing s p st st' out :
  register_push s p st = Normal (st', out) → out = [].
Proof.
  unfold register_push. destruct (Get p "userId") as [u|]; unfold_completion;
    [|discriminate].
  destruct (Get_pushToken st p) as [t|]; [|discriminate].
  destruct (TryToString u); [|discriminate].
  destruct (TryToString t); [|discriminate].
  destruct (negb (ToBoolean u) || negb (ToBoolean t)); [by intros [= _ <-]|].
  destruct (write _ _ _); [by intros [= _ <-] | discriminate].
Qed.

Lemma disconnect_emits_nothing s st st' out :
  disconnect s st = Normal (st', out) → out = [].
Proof.
  unfold disconnect. destruct (TryToString _); unfold_completion; [|discriminate].
  destruct (ToBoolean _); [|by intros [= _ <-]].
  destruct (truthy_target _); [|by intros [= _ <-]].
  destruct (write _ _ _); [by intros [= _ <-] | discriminate].
Qed.

Lemma handle_emissions m st st' out :
  handle m st = Normal (st', out) →
  (length out ≤ 1)%nat
  ∧ ∀ e, e ∈ out →
      (room e = sender m ∧ event e = "callee_unavailable")
      ∨ (∃ p to, message_payload m = Some p ∧ Get p "to" = Normal to
                 ∧ toSocket st to = Some (room e)
                 ∧ payload e = p).
Proof.
  assert (Hnil : out = [] →
            (length out ≤ 1)%nat
            ∧ ∀ e, e ∈ out →
                (room e = sender m ∧ event e = "callee_unavailable")
                ∨ (∃ p to, message_payload m = Some p ∧ Get p "to" = Normal to
                           ∧ toSocket st to = Some (room e) ∧ payload e = p)).
  { intros ->. split; [simpl; lia|]. intros e He. by apply not_elem_of_nil in He. }
  assert (Hfw : ∀ name s p, settle (forward name p st) = Normal (st', out) →
            (length out ≤ 1)%nat
            ∧ ∀ e, e ∈ out →
                (room e = s ∧ event e = "callee_unavailable")
                ∨ (∃ p' to, Some p = Some p' ∧ Get p' "to" = Normal to
                            ∧ toSocket st to = Some (room e) ∧ payload e = p')).
  { intros name s p [Hc <-]%settle_Normal.
    destruct (forward_shape _ _ _ _ Hc) as (_ & to & Hto & _ & [[Hid ->]|[_ ->]]).
    - split; [simpl; lia|]. intros e ->%list_elem_of_singleton. right.
      exists p, to. repeat split; try done. simpl. by apply truthy_id_default.
    - split; [simpl; lia|]. intros e He. by apply not_elem_of_nil in He. }
  destruct m as [s p|s p|s p|s p|s p|s p|s]; simpl.
  - intros ->%register_emits_nothing. by apply Hnil.
  - intros ->%register_push_emits_nothing. by apply Hnil.
  - intros [Hc <-]%settle_Normal.
    destruct (call_shape _ _ _ _ Hc) as (_ & to & Hto & _ & [[Hid ->]|[_ ->]]).
    + split; [simpl; lia|]. intros e ->%list_elem_of_singleton. right.
      exists p, to. repeat split; try done. simpl. by apply truthy_id_default.
    + split; [simpl; lia|]. intros e ->%list_elem_of_singleton. by left.
  - apply Hfw.
  - apply Hfw.
  - apply Hfw.
  - intros ->%disconnect_emits_nothing. by apply Hnil.
Qed.

(** X8. With nothing stored on [Object.prototype], handling one message
    (the listener completing normally) emits at most one message.  What is
    emitted goes either to the sender itself, as [callee_unavailable], or
    to the socket id that [clients[to]?.socketId] yields for the payload's
    [to], carrying the payload as received. *)
Theorem emissions_are_addressed_by_the_registry m st st' out :
  pristine st →
  handle m st = Normal (st', out) →
  (length out ≤ 1)%nat
  ∧ ∀ e, e ∈ out →
      (room e = sender m ∧ event e = "callee_unavailable")
      ∨ (∃ p to, message_payload m = Some p ∧ Get p "to" = Normal to
                 ∧ toSocket st to = Some (room e)
                 ∧ payload e = p).
Proof. intros _. apply handle_emissions. Qed.

Lemma routing_keeps_state m st st' out :
  is_routing m = true → handle m st = Normal (st', out) →
  st' = st ∧ (length out ≤ 1)%nat.
Proof.
  intros Hr Hh. split.
  - destruct m as [s p|s p|s p|s p|s p|s p|s]; try discriminate; simpl in Hh;
      apply settle_Normal in Hh as [Hc _].
    + by apply call_shape in Hc as [-> _].
    + by apply forward_shape in Hc as [-> _].
    + by apply forward_shape in Hc as [-> _].
    + by apply forward_shape in Hc as [-> _].
  - by apply (handle_emissions m st st' out).
Qed.

(** X9. A run made of call-lifecycle events only ([call], [accept_call],
    [reject_call], [end_call]) never changes the registry, and emits at
    most one message per event handled. *)
Theorem routing_never_changes_the_registry ms st st' out :
  forallb is_routing ms = true →
  run ms st = Normal (st', out) →
  st' = st ∧ (length out ≤ length ms)%nat.
Proof.
  revert st st' out. induction ms as [|m ms IH]; intros st st' out Hall Hrun.
  - simpl in Hrun. unfold_completion. injection Hrun as <- <-. split; [done|simpl; lia].
  - simpl in Hall. apply andb_true_iff in Hall as [Hm Hms].
    simpl in Hrun. unfold_completion.
    destruct (handle m st) as [[st1 out1]|] eqn:Hh; [|discriminate].
    destruct (run ms st1) as [[st2 out2]|] eqn:Hr; [|discriminate].
    injection Hrun as <- <-.
    destruct (routing_keeps_state m st st1 out1 Hm Hh) as [-> Hlen].
    destruct (IH _ _ _ Hms Hr) as [-> Hlen'].
    split; [done|]. rewrite length_app. simpl. lia.
Qed.


(** *** Records are never removed *)

Lemma ensure_keeps_records k st j :
  (is_Some (clients st !! j) → is_Some (clients (ensure_client k st) !! j))
  ∧ (is_Some (clients st !! j ≫= pushToken) →
     is_Some (clients (ensure_client k st) !! j ≫= pushToken)).
Proof.
  unfold ensure_client. destruct (truthy_target (clients_at st k)) eqn:Ht; [tauto|].
  simpl. destruct (decide (k = j)) as [<-|Hne].
  - assert (Hk : clients st !! k = None).
    { destruct (clients st !! k) as [c|] eqn:Hc; [|done].
      by rewrite (clients_at_Own _ _ _ Hc) in Ht. }
    rewrite Hk. split; intros [? ?]; discriminate.
  - rewrite lookup_insert_ne by done. tauto.
Qed.

Lemma write_keeps_records (f : client → client) k st st1 j :
  (∀ c, is_Some (pushToken c) → is_Some (pushToken (f c))) →
  write f k st = Normal st1 →
  (is_Some (clients st !! j) → is_Some (clients st1 !! j))
  ∧ (is_Some (clients st !! j ≫= pushToken) → is_Some (clients st1 !! j ≫= pushToken)).
Proof.
  intros Hf. unfold write.
  destruct (clients_at st k) as [c| |n|v|];
    try destruct (nullish v); try discriminate; intros [= <-]; simpl; try tauto.
  destruct (decide (k = j)) as [<-|Hne].
  - rewrite lookup_alter_eq. destruct (clients st !! k) as [c0|]; simpl.
    + split; [by eauto | apply Hf].
    + tauto.
  - rewrite lookup_alter_ne by done. tauto.
Qed.

Lemma handle_keeps_records m st st' out k :
  handle m st = Normal (st', out) →
  (is_Some (clients st !! k) → is_Some (clients st' !! k))
  ∧ (is_Some (clients st !! k ≫= pushToken) → is_Some (clients st' !! k ≫= pushToken)).
Proof.
  intros Hh.
  destruct (is_routing m) eqn:Hr;
    [destruct (routing_keeps_state m st st' out Hr Hh) as [-> _]; tauto|].
  destruct m as [s p|s p|s p|s p|s p|s p|s]; try discriminate; simpl in Hh.
  - unfold register in Hh. destruct (Get p "userId") as [u|]; unfold_completion;
      [|discriminate].
    destruct (TryToString u); [|discriminate].
    destruct (negb (ToBoolean u)); [injection Hh as <- _; tauto|].
    destruct (write _ _ _) as [st1|] eqn:Hw; [|discriminate].
    injection Hh as <- _. simpl.
    destruct (ensure_keeps_records (ToPropertyKey u) st k) as [E1 E2].
    assert (Hf : ∀ c, is_Some (pushToken c) → is_Some (pushToken (set_socketId s c)))
      by (intros c Hc; exact Hc).
    destruct (write_keeps_records _ _ _ _ k Hf Hw) as [W1 W2].
    split; auto.
  - unfold register_push in Hh. destruct (Get p "userId") as [u|]; unfold_completion;
      [|discriminate].
    destruct (Get_pushToken st p) as [t|]; [|discriminate].
    destruct (TryToString u); [|discriminate].
    destruct (TryToString t); [|discriminate].
    destruct (negb (ToBoolean u) || negb (ToBoolean t)); [injection Hh as <- _; tauto|].
    destruct (write _ _ _) as [st1|] eqn:Hw; [|discriminate].
    injection Hh as <- _.
    destruct (ensure_keeps_records (ToPropertyKey u) st k) as [E1 E2].
    assert (Hf : ∀ c, is_Some (pushToken c) → is_Some (pushToken (set_pushToken t c)))
      by (intros c _; by eexists).
    destruct (write_keeps_records _ _ _ _ k Hf Hw) as [W1 W2].
    split; auto.
  - unfold disconnect in Hh. destruct (TryToString _); unfold_completion; [|discriminate].
    destruct (ToBoolean _); [|injection Hh as <- _; tauto].
    destruct (truthy_target _); [|injection Hh as <- _; tauto].
    destruct (write _ _ _) as [st1|] eqn:Hw; [|discriminate].
    injection Hh as <- _.
    assert (Hf : ∀ c, is_Some (pushToken c) → is_Some (pushToken (delete_socketId c)))
      by (intros c Hc; exact Hc).
    apply (write_keeps_records _ _ _ _ k Hf Hw).
Qed.

(** X10. Nothing is ever evicted: a record present under a key is still
    present after any run, and a key that has a push token on file still
    has one (only a later [register_push] for the same key replaces it). *)
Theorem records_and_tokens_are_never_removed ms st st' out k :
  run ms st = Normal (st', out) →
  (is_Some (clients st !! k) → is_Some (clients st' !! k))
  ∧ (is_Some (clients st !! k ≫= pushToken) → is_Some (clients st' !! k ≫= pushToken)).
Proof.
  revert st st' out. induction ms as [|m ms IH]; intros st st' out Hrun.
  - simpl in Hrun. unfold_completion. injection Hrun as <- _. tauto.
  - simpl in Hrun. unfold_completion.
    destruct (handle m st) as [[st1 out1]|] eqn:Hh; [|discriminate].
    destruct (run ms st1) as [[st2 out2]|] eqn:Hr; [|discriminate].
    injection Hrun as <- _.
    destruct (handle_keeps_records m st st1 out1 k Hh) as [H1 H2].
    destruct (IH _ _ _ Hr) as [H3 H4]. split; auto.
Qed.

(** *** Registrations, with nothing on Object.prototype *)

Lemma lookup_prop_absent p props :
  has_prop p props = false → lookup_prop p props = VUndefined.
Proof.
  induction props as [|[k v] props IH]; simpl; [done|].
  destruct (String.eqb k p); [discriminate | exact IH].
Qed.

Lemma Get_pushToken_pristine st msg :
  pristine st → Get_pushToken st msg = Get msg "pushToken".
Proof.
  intros Hp. unfold Get_pushToken. rewrite Hp. destruct msg; simpl; try done.
  destruct (has_prop "pushToken" props) eqn:Hh; [done|].
  by rewrite lookup_prop_absent.
Qed.

Lemma register_push_plain socket msg st u t :
  Get msg "userId" = Normal u → Get msg "pushToken" = Normal t →
  stringable u = true → stringable t = true →
  ToBoolean u = true → ToBoolean t = true →
  plain_key (ToPropertyKey u) = true → pristine st →
  register_push socket msg st
  = Normal (with_clients st
              (<[ToPropertyKey u :=
                   set_pushToken t (default empty_client (clients st !! ToPropertyKey u))]>
                 (clients st)), []).
Proof.
  intros Hu Htok Hsu Hst Hut Htt Hk Hp. unfold register_push.
  rewrite Hu, (Get_pushToken_pristine _ _ Hp), Htok. unfold_completion.
  rewrite (TryToString_Normal _ Hsu), (TryToString_Normal _ Hst), Hut, Htt. simpl.
  by rewrite (upsert_plain _ _ _ Hk Hp).
Qed.

(** X2. With nothing stored on [Object.prototype], a [register_push] whose
    userId and pushToken have a string form and are truthy, under a key
    that is not an inherited name, stores the token in the user's record
    and changes nothing else: the live connection of every key, what
    [clients] holds under every other key and the user id remembered on
    every socket (the sending one included) stay as they were.  With a
    falsy userId or pushToken the event is ignored. *)
Theorem register_push_sets_only_the_token socket msg st u t :
  Get msg "userId" = Normal u → Get msg "pushToken" = Normal t →
  stringable u = true → stringable t = true → pristine st →
  (ToBoolean u = true → ToBoolean t = true → plain_key (ToPropertyKey u) = true →
   ∃ st', register_push socket msg st = Normal (st', [])
          ∧ toPushToken st' u = Some t
          ∧ (∀ k, toSocket st' k = toSocket st k)
          ∧ (∀ k, ToPropertyKey k ≠ ToPropertyKey u → toClient st' k = toClient st k)
          ∧ data_userId st' = data_userId st
          ∧ pristine st')
  ∧ (ToBoolean u = false ∨ ToBoolean t = false →
     register_push socket msg st = Normal (st, [])).
Proof.
  intros Hu Htok Hsu Hst Hp. split.
  - intros Hut Htt Hk. rewrite (register_push_plain _ _ _ u t) by done.
    eexists; split; [reflexivity|].
    split; [|split; [|split; [|split]]]; try done.
    + rewrite toPushToken_plain by done. simpl. by rewrite lookup_insert_eq.
    + intros k. unfold toSocket, toClient, clients_at. simpl.
      destruct (decide (ToPropertyKey u = ToPropertyKey k)) as [<-|Hne].
      * rewrite lookup_insert_eq. simpl.
        destruct (clients st !! ToPropertyKey u) as [c|] eqn:Hc; simpl; [done|].
        destruct (plain_key_spec (ToPropertyKey u) Hk) as [E1 E2].
        rewrite E1, E2, Hp. simpl.
        by destruct (String.eqb (ToPropertyKey u) "socketId"),
          (String.eqb (ToPropertyKey u) "pushToken").
      * by rewrite lookup_insert_ne.
    + intros k Hne. unfold toClient, clients_at. simpl. by rewrite lookup_insert_ne.
  - intros Hf. unfold register_push.
    rewrite Hu, (Get_pushToken_pristine _ _ Hp), Htok. unfold_completion.
    rewrite (TryToString_Normal _ Hsu), (TryToString_Normal _ Hst).
    destruct Hf as [-> | ->]; [reflexivity|]. by rewrite orb_true_r.
Qed.

(** X3. With nothing stored on [Object.prototype], a [register] whose
    userId has a string form and is truthy, under a key that is not an
    inherited name, binds the user's key to the socket, remembers the user
    id on the socket, and changes nothing else: every push token on file,
    what [clients] holds under every other key and what the other sockets
    remember stay as they were.  With a falsy userId (absent, empty string,
    0, ...) the event is ignored. *)
Theorem register_sets_only_the_socket socket msg st u :
  Get msg "userId" = Normal u → stringable u = true → pristine st →
  (ToBoolean u = true → plain_key (ToPropertyKey u) = true →
   ∃ st', register socket msg st = Normal (st', [])
          ∧ toSocket st' u = Some socket
          ∧ data_userId st' !! socket = Some u
          ∧ (∀ k, toPushToken st' k = toPushToken st k)
          ∧ (∀ k, ToPropertyKey k ≠ ToPropertyKey u → toClient st' k = toClient st k)
          ∧ (∀ s, s ≠ socket → data_userId st' !! s = data_userId st !! s)
          ∧ pristine st')
  ∧ (ToBoolean u = false → register socket msg st = Normal (st, [])).
Proof.
  intros Hu Hs Hp. split.
  - intros Ht Hk. rewrite (register_plain _ _ _ u) by done.
    eexists; split; [reflexivity|].
    split; [|split; [|split; [|split; [|split]]]]; try done.
    + by apply registered_toSocket.
    + simpl. by rewrite lookup_insert_eq.
    + intros k. unfold toPushToken, toClient, clients_at. simpl.
      destruct (decide (ToPropertyKey u = ToPropertyKey k)) as [<-|Hne].
      * rewrite lookup_insert_eq. simpl.
        destruct (clients st !! ToPropertyKey u) as [c|] eqn:Hc; simpl; [done|].
        destruct (plain_key_spec (ToPropertyKey u) Hk) as [E1 E2].
        rewrite E1, E2, Hp. simpl.
        by destruct (String.eqb (ToPropertyKey u) "socketId"),
          (String.eqb (ToPropertyKey u) "pushToken").
      * by rewrite lookup_insert_ne.
    + intros k Hne. unfold toClient. by apply registered_clients_at_ne.
    + intros s Hne. simpl. by rewrite lookup_insert_ne.
  - intros Hf. unfold register. rewrite Hu. unfold_completion.
    by rewrite (TryToString_Normal _ Hs), Hf.
Qed.

(** X7. With nothing stored on [Object.prototype], a socket that registers
    as A and then as B (two ids with a string form, under different keys
    that are not inherited names) remembers only B: when it disconnects,
    B's entry is cleared and A's entry is left pointing to the socket that
    is gone. *)
Theorem reregistration_leaves_stale_entry socket m1 m2 A B st :
  Get m1 "userId" = Normal A → Get m2 "userId" = Normal B →
  ToBoolean A = true → ToBoolean B = true →
  stringable A = true → stringable B = true →
  plain_key (ToPropertyKey A) = true → plain_key (ToPropertyKey B) = true →
  ToPropertyKey A ≠ ToPropertyKey B → pristine st →
  ∃ st', run [Register socket m1; Register socket m2; Disconnect socket] st
         = Normal (st', [])
         ∧ toSocket st' A = Some socket
         ∧ toSocket st' B = None.
Proof.
  intros HA HB HtA HtB HsA HsB HkA HkB Hne Hp. simpl.
  rewrite (register_plain _ _ _ A) by done. unfold_completion.
  rewrite (register_plain _ _ _ B) by done. simpl.
  rewrite (disconnect_plain _ _ B); try done.
  - eexists; split; [reflexivity|]. split.
    + rewrite toSocket_plain by done. simpl.
      rewrite lookup_alter_ne by done. rewrite lookup_insert_ne by done.
      by rewrite lookup_insert_eq.
    + rewrite toSocket_plain by done. simpl. rewrite lookup_alter_eq.
      by rewrite lookup_insert_eq.
  - simpl. by rewrite lookup_insert_eq.
Qed.

(** X14. User ids are matched by their string form.  With nothing stored
    on [Object.prototype], once a socket has registered under a truthy
    userId (with a string form, under a key that is not an inherited
    name), a [call] whose [to] has the same string form (the string itself,
    or say the array holding it) is delivered to that socket, once, with
    the payload as received; the caller gets nothing back. *)
Theorem registered_user_receives_the_call socket m u caller msg to from st :
  Get m "userId" = Normal u → ToBoolean u = true → stringable u = true →
  plain_key (ToPropertyKey u) = true → pristine st →
  Get msg "to" = Normal to → stringable to = true →
  ToPropertyKey to = ToPropertyKey u →
  Get msg "from" = Normal from → stringable from = true →
  socket ≠ "" →
  ∃ st', run [Register socket m; Call caller msg] st
         = Normal (st', [{| room := socket; event := "incoming_call";
                            payload := msg |}])
         ∧ toSocket st' u = Some socket.
Proof.
  intros Hu Ht Hs Hk Hp Hto Hsto Hkey Hf Hsf Hne. simpl.
  rewrite (register_plain _ _ _ u) by done. unfold_completion.
  rewrite (call_available caller msg _ to socket) by
    (try done; unfold toSocket, toClient; rewrite Hkey;
     by apply (registered_toSocket socket u st)).
  unfold settle. simpl. rewrite (log_from_Normal _ _ from) by done.
  unfold_completion. eexists; split; [reflexivity|].
  by apply registered_toSocket.
Qed.

(** X13. With nothing stored on [Object.prototype], when a token is on
    file (and [to], [from], [channel] and the token have a string form),
    POST /sendPush submits exactly one request
    to the provider and answers 500 [push_failed] only when [fetch]
    rejects or when the reply is a non-success whose body cannot be read;
    in every other case, whatever the status of the reply, it answers 200
    [{ok: true}]. *)
Theorem sendPush_fails_only_on_rejection body st to from channel t :
  pristine st →
  Get body "to" = Normal to → Get body "from" = Normal from →
  Get body "channel" = Normal channel →
  stringable to = true → stringable from = true → stringable channel = true →
  toPushToken st to = Some t → ToBoolean t = true → stringable t = true →
  ∃ resp, sendPush body st = Normal (resp, [push_request t from channel])
          ∧ (resp = error_response 500 "push_failed"
             ↔ Push.fetch (push_request t from channel) = Push.Rejected
               ∨ ∃ r, Push.fetch (push_request t from channel) = Push.Resolved r
                      ∧ Push.ok r = false ∧ Push.text r = Throw)
          ∧ (resp ≠ error_response 500 "push_failed" → resp = ok_response).
Proof.
  intros _ Hto Hfrom Hch Hsto Hsf Hsc Htok Ht Hst.
  rewrite (sendPush_with_token body st to from channel t) by done.
  eexists; split; [reflexivity|]. unfold after_fetch.
  destruct (Push.fetch _) as [|r]; [|destruct (Push.ok r) eqn:Hok;
                                      [|destruct (Push.text r) as [e|] eqn:Htx]].
  - split; [split; [by left|done]|done].
  - split; [|done]. split; [discriminate|].
    intros [?|(r' & [= <-] & Hok' & _)]; congruence.
  - split; [|done]. split; [discriminate|].
    intros [?|(r' & [= <-] & _ & Htx')]; congruence.
  - split; [|done]. split; [|done]. intros _. right. by exists r.
Qed.

Lemma register_eval s m st :
  pristine st → plain_userId m = true →
  register s m st
  = match Get m "userId" with
    | Normal u =>
        if stringable u then
          if ToBoolean u then Normal (registered s u st, []) else Normal (st, [])
        else Throw
    | Throw => Throw
    end.
Proof.
  intros Hp Hk. unfold plain_userId in Hk.
  destruct (Get m "userId") as [u|] eqn:Hu; [|unfold register; by rewrite Hu].
  destruct (stringable u) eqn:Hs.
  - destruct (ToBoolean u) eqn:Ht.
    + by apply register_plain.
    + unfold register. rewrite Hu. unfold_completion.
      by rewrite (TryToString_Normal _ Hs), Ht.
  - unfold register, TryToString. rewrite Hu. unfold_completion. by rewrite Hs.
Qed.

Lemma register_push_eval s m st :
  pristine st → plain_userId m = true →
  register_push s m st
  = match Get m "userId", Get m "pushToken" with
    | Normal u, Normal t =>
        if stringable u && stringable t then
          if ToBoolean u && ToBoolean t then Normal (pushed u t st, [])
          else Normal (st, [])
        else Throw
    | _, _ => Throw
    end.
Proof.
  intros Hp Hk. unfold plain_userId in Hk.
  destruct (Get m "userId") as [u|] eqn:Hu; [|unfold register_push; by rewrite Hu].
  destruct (Get m "pushToken") as [t|] eqn:Htok;
    [|unfold register_push; rewrite Hu, (Get_pushToken_pristine _ _ Hp), Htok; done].
  destruct (stringable u) eqn:Hsu, (stringable t) eqn:Hst; simpl;
    try (unfold register_push, TryToString;
         rewrite Hu, (Get_pushToken_pristine _ _ Hp), Htok; unfold_completion;
         by rewrite ?Hsu, ?Hst).
  destruct (ToBoolean u) eqn:Hut, (ToBoolean t) eqn:Htt; simpl;
    try (unfold register_push;
         rewrite Hu, (Get_pushToken_pristine _ _ Hp), Htok; unfold_completion;
         by rewrite (TryToString_Normal _ Hsu), (TryToString_Normal _ Hst), Hut, Htt).
  by apply register_push_plain.
Qed.

Lemma registered_pushed_commute s u1 u2 t st :
  registered s u1 (pushed u2 t st) = pushed u2 t (registered s u1 st).
Proof.
  unfold registered, pushed, with_clients. simpl.
  generalize (ToPropertyKey u1) (ToPropertyKey u2). intros k1 k2.
  f_equal. apply map_eq. intros j.
  destruct (decide (k1 = k2)) as [->|N].
  - rewrite !lookup_insert_eq. simpl. rewrite !insert_insert_eq.
    destruct (decide (k2 = j)) as [->|Nj].
    + by rewrite !lookup_insert_eq.
    + by rewrite !lookup_insert_ne by done.
  - rewrite !(lookup_insert_ne _ k2 k1) by done.
    rewrite !(lookup_insert_ne _ k1 k2) by done.
    destruct (decide (k1 = j)) as [->|N1].
    + rewrite lookup_insert_eq, lookup_insert_ne by done.
      by rewrite lookup_insert_eq.
    + rewrite (lookup_insert_ne _ k1 j) by done.
      destruct (decide (k2 = j)) as [->|N2].
      * by rewrite !lookup_insert_eq.
      * by rewrite !lookup_insert_ne by done.
Qed.

(** X4. With nothing stored on [Object.prototype] and user ids whose keys
    are not inherited names, [register] and [register_push] commute:
    handled in either order, from any sockets, they leave the same state
    (and emit nothing), or both orders end in an exception. *)
Theorem register_and_register_push_commute s1 m1 s2 m2 st :
  pristine st → plain_userId m1 = true → plain_userId m2 = true →
  run [Register s1 m1; RegisterPush s2 m2] st
  = run [RegisterPush s2 m2; Register s1 m1] st.
Proof.
  intros Hp H1 H2. simpl.
  rewrite (register_eval s1 m1 st Hp H1), (register_push_eval s2 m2 st Hp H2).
  destruct (Get m1 "userId") as [u1|] eqn:Hu1.
  - destruct (stringable u1) eqn:Hs1.
    + destruct (ToBoolean u1) eqn:Ht1; unfold_completion.
      * rewrite (register_push_eval s2 m2 _ (registered_pristine s1 u1 st Hp) H2).
        destruct (Get m2 "userId") as [u2|]; [|reflexivity].
        destruct (Get m2 "pushToken") as [t|]; [|reflexivity].
        destruct (stringable u2 && stringable t); [|reflexivity].
        destruct (ToBoolean u2 && ToBoolean t).
        -- rewrite (register_eval s1 m1 (pushed u2 t st) Hp H1), Hu1, Hs1, Ht1.
           by rewrite registered_pushed_commute.
        -- by rewrite (register_eval s1 m1 st Hp H1), Hu1, Hs1, Ht1.
      * rewrite ?(register_push_eval s2 m2 st Hp H2).
        destruct (Get m2 "userId") as [u2|]; [|reflexivity].
        destruct (Get m2 "pushToken") as [t|]; [|reflexivity].
        destruct (stringable u2 && stringable t); [|reflexivity].
        destruct (ToBoolean u2 && ToBoolean t).
        -- by rewrite (register_eval s1 m1 (pushed u2 t st) Hp H1), Hu1, Hs1, Ht1.
        -- by rewrite (register_eval s1 m1 st Hp H1), Hu1, Hs1, Ht1.
    + unfold_completion.
      destruct (Get m2 "userId") as [u2|]; [|reflexivity].
      destruct (Get m2 "pushToken") as [t|]; [|reflexivity].
      destruct (stringable u2 && stringable t); [|reflexivity].
      destruct (ToBoolean u2 && ToBoolean t).
      * by rewrite (register_eval s1 m1 (pushed u2 t st) Hp H1), Hu1, Hs1.
      * by rewrite (register_eval s1 m1 st Hp H1), Hu1, Hs1.
  - unfold_completion.
    destruct (Get m2 "userId") as [u2|]; [|reflexivity].
    destruct (Get m2 "pushToken") as [t|]; [|reflexivity].
    destruct (stringable u2 && stringable t); [|reflexivity].
    destruct (ToBoolean u2 && ToBoolean t).
    + by rewrite (register_eval s1 m1 (pushed u2 t st) Hp H1), Hu1.
    + by rewrite (register_eval s1 m1 st Hp H1), Hu1.
Qed.

(** *** Reachable states *)

Lemma good_empty_client : good_token empty_client.
Proof. intros t. discriminate. Qed.

Lemma good_set_socketId s c : good_token c → good_token (set_socketId s c).
Proof. intros Hc t. apply Hc. Qed.

Lemma good_delete_socketId c : good_token c → good_token (delete_socketId c).
Proof. intros Hc t. apply Hc. Qed.

Lemma good_set_pushToken t c :
  ToBoolean t = true → stringable t = true → good_token (set_pushToken t c).
Proof. intros Ht Hs t'. simpl. by intros [= <-]. Qed.

Lemma initial_consistent : consistent initial.
Proof.
  unfold consistent, initial. simpl. split; [|split; [|split]].
  - intros k c Hk. by rewrite lookup_empty in Hk.
  - apply good_empty_client.
  - intros n c Hn. by rewrite lookup_empty in Hn.
  - intros s u Hs. by rewrite lookup_empty in Hs.
Qed.

Lemma ensure_consistent k st : consistent st → consistent (ensure_client k st).
Proof.
  intros (Hcl & Hpr & Hbu & Hda). unfold ensure_client.
  destruct (truthy_target (clients_at st k)); [done|].
  split; [|done]. simpl. intros j c.
  destruct (decide (k = j)) as [<-|Hne].
  - rewrite lookup_insert_eq. intros [= <-]. apply good_empty_client.
  - rewrite lookup_insert_ne by done. apply Hcl.
Qed.

Lemma write_consistent (f : client → client) k st st1 :
  (∀ c, good_token c → good_token (f c)) →
  consistent st → write f k st = Normal st1 → consistent st1.
Proof.
  intros Hf (Hcl & Hpr & Hbu & Hda). unfold write.
  destruct (clients_at st k) as [c| |n|v|];
    try destruct (nullish v); try discriminate; intros [= <-]; try done.
  - split; [|done]. simpl. intros j c'. rewrite lookup_alter. case_decide as Hj.
    + subst j. destruct (clients st !! k) as [c0|] eqn:Hc0; simpl; [|discriminate].
      intros [= <-]. apply Hf. by apply (Hcl k).
    + apply Hcl.
  - split; [done|]. split; [|done]. simpl. by apply Hf.
  - split; [done|]. split; [done|]. split; [|done]. simpl. intros j c'.
    destruct (decide (n = j)) as [<-|Hne].
    + rewrite lookup_insert_eq. intros [= <-]. apply Hf.
      destruct (builtins st !! n) as [c0|] eqn:Hc0; simpl.
      * by apply (Hbu n).
      * apply good_empty_client.
    + rewrite lookup_insert_ne by done. apply Hbu.
Qed.

Lemma handle_consistent m st st' out :
  consistent st → handle m st = Normal (st', out) → consistent st'.
Proof.
  intros Hc Hh.
  destruct (is_routing m) eqn:Hr;
    [by destruct (routing_keeps_state m st st' out Hr Hh) as [-> _]|].
  destruct m as [s p|s p|s p|s p|s p|s p|s]; try discriminate; simpl in Hh.
  - unfold register in Hh. destruct (Get p "userId") as [u|]; unfold_completion;
      [|discriminate].
    unfold TryToString in Hh. destruct (stringable u) eqn:Hsu; [|discriminate].
    destruct (ToBoolean u) eqn:Hu; simpl in Hh; [|by injection Hh as <- _].
    destruct (write _ _ _) as [st1|] eqn:Hw; [|discriminate]. injection Hh as <- _.
    apply write_consistent in Hw;
      [|intros c; apply good_set_socketId|by apply ensure_consistent].
    destruct Hw as (Hcl & Hpr & Hbu & Hda). split; [done|]. split; [done|].
    split; [done|]. simpl. intros s' u'. destruct (decide (s = s')) as [<-|Hne].
    + rewrite lookup_insert_eq. by intros [= <-].
    + rewrite lookup_insert_ne by done. apply Hda.
  - unfold register_push in Hh. destruct (Get p "userId") as [u|]; unfold_completion;
      [|discriminate].
    destruct (Get_pushToken st p) as [t|]; [|discriminate].
    unfold TryToString in Hh. destruct (stringable u) eqn:Hsu; [|discriminate].
    destruct (stringable t) eqn:Hst; [|discriminate].
    destruct (ToBoolean u) eqn:Hu, (ToBoolean t) eqn:Ht; simpl in Hh;
      try (by injection Hh as <- _).
    destruct (write _ _ _) as [st1|] eqn:Hw; [|discriminate]. injection Hh as <- _.
    apply write_consistent in Hw;
      [done|intros c _; by apply good_set_pushToken|by apply ensure_consistent].
  - unfold disconnect in Hh. unfold_completion.
    destruct (TryToString _); [|discriminate].
    destruct (ToBoolean _); [|by injection Hh as <- _].
    destruct (truthy_target _); [|by injection Hh as <- _].
    destruct (write _ _ _) as [st1|] eqn:Hw; [|discriminate]. injection Hh as <- _.
    apply write_consistent in Hw; [done|apply good_delete_socketId|done].
Qed.

Lemma write_keeps_pristine (f : client → client) k st st1 :
  f empty_client = empty_client ∨ String.eqb k "__proto__" = false →
  pristine st → write f k st = Normal st1 → pristine st1.
Proof.
  intros Hf Hp. unfold write, pristine in *.
  destruct (clients_at st k) as [c| |n|v|] eqn:Hat;
    try destruct (nullish v); try discriminate; intros [= <-]; try done.
  simpl. destruct Hf as [Hf|Hk]; [by rewrite Hp|].
  apply clients_at_ObjectPrototype_inv in Hat as [_ Hk']. congruence.
Qed.

Lemma ensure_pristine k st : pristine st → pristine (ensure_client k st).
Proof. unfold ensure_client, pristine. by destruct (truthy_target _). Qed.

Lemma handle_pristine m st st' out :
  plain_message m = true → pristine st →
  handle m st = Normal (st', out) → pristine st'.
Proof.
  intros Hm Hp Hh.
  destruct (is_routing m) eqn:Hr;
    [by destruct (routing_keeps_state m st st' out Hr Hh) as [-> _]|].
  destruct m as [s p|s p|s p|s p|s p|s p|s]; try discriminate; simpl in Hh, Hm.
  - unfold plain_userId in Hm. unfold register in Hh.
    destruct (Get p "userId") as [u|]; unfold_completion; [|discriminate].
    destruct (TryToString u); [|discriminate].
    destruct (ToBoolean u); simpl in Hh; [|by injection Hh as <- _].
    destruct (write _ _ _) as [st1|] eqn:Hw; [|discriminate]. injection Hh as <- _.
    apply plain_key_spec in Hm as [Hk _].
    apply (write_keeps_pristine _ _ _ _ (or_intror Hk) (ensure_pristine _ _ Hp) Hw).
  - unfold plain_userId in Hm. unfold register_push in Hh.
    destruct (Get p "userId") as [u|]; unfold_completion; [|discriminate].
    destruct (Get_pushToken st p) as [t|]; [|discriminate].
    destruct (TryToString u); [|discriminate].
    destruct (TryToString t); [|discriminate].
    destruct (negb (ToBoolean u) || negb (ToBoolean t)); [by injection Hh as <- _|].
    destruct (write _ _ _) as [st1|] eqn:Hw; [|discriminate]. injection Hh as <- _.
    apply plain_key_spec in Hm as [Hk _].
    apply (write_keeps_pristine _ _ _ _ (or_intror Hk) (ensure_pristine _ _ Hp) Hw).
  - unfold disconnect in Hh. unfold_completion.
    destruct (TryToString _); [|discriminate].
    destruct (ToBoolean _); [|by injection Hh as <- _].
    destruct (truthy_target _); [|by injection Hh as <- _].
    destruct (write _ _ _) as [st1|] eqn:Hw; [|discriminate]. injection Hh as <- _.
    apply (write_keeps_pristine _ _ _ _ (or_introl eq_refl) Hp Hw).
Qed.

Lemma run_invariant ms st st' out :
  forallb plain_message ms = true → consistent st → pristine st →
  run ms st = Normal (st', out) → consistent st' ∧ pristine st'.
Proof.
  revert st st' out. induction ms as [|m ms IH]; intros st st' out Hms Hc Hp Hrun.
  - simpl in Hrun. unfold_completion. by injection Hrun as <- _.
  - simpl in Hrun, Hms. apply andb_true_iff in Hms as [Hm Hms]. unfold_completion.
    destruct (handle m st) as [[st1 out1]|] eqn:Hh; [|discriminate].
    destruct (run ms st1) as [[st2 out2]|] eqn:Hr; [|discriminate].
    injection Hrun as <- _.
    eapply IH; [exact Hms| | |exact Hr].
    + by eapply handle_consistent.
    + by eapply handle_pristine.
Qed.

Lemma Get_Normal_other v p q x :
  Get v p = Normal x → ∃ y, Get v q = Normal y.
Proof. destruct v; simpl; try discriminate; by eauto. Qed.

Lemma read_pushToken_good st k t :
  consistent st → read_pushToken st (clients_at st k) = Some t →
  ToBoolean t = true ∧ stringable t = true.
Proof.
  intros (Hcl & Hpr & Hbu & _) Hr.
  assert (Hown : ∀ c, good_token c →
                      own_or_inherited (pushToken c) (pushToken (prototype st)) = Some t →
                      ToBoolean t = true ∧ stringable t = true).
  { intros c Hc. destruct (pushToken c) as [t0|] eqn:Ht0; simpl.
    - intros [= <-]. by apply Hc.
    - apply Hpr. }
  destruct (clients_at st k) as [c| |n|v|] eqn:Hat; simpl in Hr.
  - apply (Hown c); [|exact Hr]. apply (Hcl k). by apply clients_at_Own_inv.
  - by apply Hpr.
  - destruct (builtins st !! n) as [c|] eqn:Hn; simpl in Hr.
    + apply (Hown c); [by apply (Hbu n)|exact Hr].
    + by apply Hpr.
  - destruct (nullish v); [discriminate|]. by apply Hpr.
  - discriminate.
Qed.

(** X12. In every state the server reaches from the empty registry by
    messages that do not register under a name inherited from
    [Object.prototype], nothing is stored on [Object.prototype], and each
    push token on file and each user id remembered on a socket is truthy
    and has a string form.  Hence POST /sendPush (for a [to] that has a
    string form) answers 400 [No push token for recipient] exactly when
    no token is on file for [to]. *)
Theorem reachable_states_are_consistent st :
  reachable st →
  consistent st ∧ pristine st
  ∧ ∀ body to, Get body "to" = Normal to → stringable to = true →
      (sendPush body st
       = Normal (error_response 400 "No push token for recipient", [])
       ↔ toPushToken st to = None).
Proof.
  intros (ms & out & Hms & Hrun).
  destruct (run_invariant ms initial st out Hms initial_consistent eq_refl Hrun)
    as [Hc Hp].
  split; [exact Hc|]. split; [exact Hp|]. intros body to Hto Hsto.
  destruct (Get_Normal_other body "to" "from" to Hto) as [from Hfrom].
  destruct (Get_Normal_other body "to" "channel" to Hto) as [channel Hch].
  destruct (toPushToken st to) as [t|] eqn:Htok.
  - destruct (read_pushToken_good st (ToPropertyKey to) t Hc Htok) as [Ht Hst].
    split; [|discriminate]. unfold sendPush.
    rewrite Hto, Hfrom, Hch. unfold_completion.
    rewrite (TryToPropertyKey_Normal _ Hsto).
    unfold toPushToken, toClient in Htok. rewrite Htok. simpl. rewrite Ht. simpl.
    rewrite (TryToString_Normal _ Hst).
    destruct (TryToString from); [|discriminate].
    destruct (TryToString channel); [|discriminate].
    destruct (Push.fetch _) as [|r]; [discriminate|].
    destruct (Push.ok r); simpl; [discriminate|].
    destruct (Push.text r); discriminate.
  - split; [done|]. intros _. apply (sendPush_without_token body st to Hto Hsto).
    by rewrite Htok.
Qed.

Lemma handle_total m st :
  consistent st → well_formed m = true → ∃ st' out, handle m st = Normal (st', out).
Proof.
  intros Hc Hm. destruct m as [s p|s p|s p|s p|s p|s p|s]; simpl in *.
  - unfold field_ok in Hm. unfold register.
    destruct (Get p "userId") as [u|]; [|discriminate]. unfold_completion.
    rewrite (TryToString_Normal _ Hm).
    destruct (ToBoolean u); simpl; [|by eauto].
    destruct (write_ensure_total (set_socketId s) (ToPropertyKey u) st) as [st1 ->].
    by eauto.
  - apply andb_true_iff in Hm as [Hu Ht]. unfold field_ok in Hu, Ht.
    unfold register_push.
    destruct (Get p "userId") as [u|] eqn:Hgu; [|discriminate]. unfold_completion.
    destruct (Get p "pushToken") as [t0|] eqn:Hgt; [|discriminate].
    assert (Hg : ∃ t, Get_pushToken st p = Normal t ∧ stringable t = true).
    { destruct (Get_Normal_other p "userId" "pushToken" u Hgu) as [y Hy].
      unfold Get_pushToken. destruct Hc as (_ & Hpr & _).
      assert (Hin : stringable (default VUndefined (pushToken (prototype st))) = true).
      { destruct (pushToken (prototype st)) as [t1|] eqn:Ht1; simpl; [|done].
        by apply Hpr. }
      destruct p; try discriminate; try (eexists; split; [reflexivity|done]).
      simpl in Hgt. injection Hgt as <-.
      destruct (has_prop "pushToken" props); eexists; (split; [reflexivity|done]). }
    destruct Hg as (t & -> & Hst).
    rewrite (TryToString_Normal _ Hu), (TryToString_Normal _ Hst).
    destruct (negb (ToBoolean u) || negb (ToBoolean t)); [by eauto|].
    destruct (write_ensure_total (set_pushToken t) (ToPropertyKey u) st) as [st1 ->].
    by eauto.
  - apply andb_true_iff in Hm as [Hto Hfrom]. unfold field_ok in Hto, Hfrom.
    destruct (Get p "to") as [to|] eqn:Hgto; [|discriminate].
    destruct (Get p "from") as [from|] eqn:Hgf; [|discriminate].
    unfold settle, call. rewrite Hgto. unfold_completion.
    rewrite (TryToPropertyKey_Normal _ Hto).
    destruct (truthy_id _); simpl; [|by eauto].
    rewrite Hgf, (TryToString_Normal _ Hfrom). by eauto.
  - apply andb_true_iff in Hm as [Hto Hfrom]. unfold field_ok in Hto, Hfrom.
    destruct (Get p "to") as [to|] eqn:Hgto; [|discriminate].
    destruct (Get p "from") as [from|] eqn:Hgf; [|discriminate].
    unfold settle, accept_call, forward. rewrite Hgto. unfold_completion.
    rewrite (TryToPropertyKey_Normal _ Hto).
    destruct (truthy_id _); simpl; [|by eauto].
    rewrite Hgf, (TryToString_Normal _ Hfrom). by eauto.
  - apply andb_true_iff in Hm as [Hto Hfrom]. unfold field_ok in Hto, Hfrom.
    destruct (Get p "to") as [to|] eqn:Hgto; [|discriminate].
    destruct (Get p "from") as [from|] eqn:Hgf; [|discriminate].
    unfold settle, reject_call, forward. rewrite Hgto. unfold_completion.
    rewrite (TryToPropertyKey_Normal _ Hto).
    destruct (truthy_id _); simpl; [|by eauto].
    rewrite Hgf, (TryToString_Normal _ Hfrom). by eauto.
  - apply andb_true_iff in Hm as [Hto Hfrom]. unfold field_ok in Hto, Hfrom.
    destruct (Get p "to") as [to|] eqn:Hgto; [|discriminate].
    destruct (Get p "from") as [from|] eqn:Hgf; [|discriminate].
    unfold settle, end_call, forward. rewrite Hgto. unfold_completion.
    rewrite (TryToPropertyKey_Normal _ Hto).
    destruct (truthy_id _); simpl; [|by eauto].
    rewrite Hgf, (TryToString_Normal _ Hfrom). by eauto.
  - unfold disconnect. destruct Hc as (_ & _ & _ & Hda).
    destruct (data_userId st !! s) as [u|] eqn:Hu; simpl.
    + destruct (Hda s u Hu) as [Ht Hs]. unfold_completion.
      rewrite (TryToString_Normal _ Hs), Ht.
      destruct (truthy_target _) eqn:Htt; [|by eauto].
      destruct (write_truthy_total delete_socketId (ToPropertyKey u) st Htt) as [st1 ->].
      by eauto.
    + unfold_completion. simpl. by eauto.
Qed.

(** X11. From a state with nothing stored on [Object.prototype] and
    whose tokens and remembered user ids are truthy and have a string
    form, a run of socket events never ends in an exception when every
    payload can be read (it is not [null] or [undefined]), the fields the
    listeners turn into strings have a string form, and no message
    registers under a name inherited from [Object.prototype]; the state
    it ends in is again such a state. *)
Theorem well_formed_runs_never_throw ms st :
  consistent st → pristine st →
  forallb well_formed ms = true → forallb plain_message ms = true →
  ∃ st' out, run ms st = Normal (st', out) ∧ consistent st' ∧ pristine st'.
Proof.
  revert st. induction ms as [|m ms IH]; intros st Hc Hp Hwf Hpl; simpl in *.
  - by eauto.
  - apply andb_true_iff in Hwf as [Hm Hwf]. apply andb_true_iff in Hpl as [Hpm Hpl].
    destruct (handle_total m st Hc Hm) as (st1 & out1 & Hh).
    destruct (IH st1) as (st2 & out2 & Hr & Hc2 & Hp2); try done.
    + by eapply handle_consistent.
    + by eapply handle_pristine.
    + rewrite Hh. unfold_completion. rewrite Hr. by eauto.
Qed.

(** *** GET /rtcToken: edge cases *)

Lemma add_NaN (x : number) : add x NaN = NaN.
Proof. by destruct x. Qed.


Lemma trim_start_white_space s : all_white_space s = true → trim_start s = "".
Proof.
  induction s as [|c s IH]; simpl; [done|].
  intros [Hc Hs]%andb_true_iff. rewrite Hc. by apply IH.
Qed.



(** *** The two revisions *)

Lemma v1_destination (st1 : V1.server) st2 to :
  same_routing st1 st2 → plain_key (ToPropertyKey to) = true →
  V1.destination_of (V1.clients_at st1 (ToPropertyKey to))
  = if truthy_id (toSocket st2 to)
    then Some (V1.ToSocket (default "" (toSocket st2 to))) else None.
Proof.
  intros (Hcl & _ & _ & Hp) Hk. rewrite (toSocket_plain st2 to Hk Hp).
  unfold V1.clients_at. rewrite (Hcl _ Hk).
  destruct (clients st2 !! ToPropertyKey to ≫= socketId) as [s|]; simpl.
  - by destruct (String.eqb s "").
  - apply plain_key_spec in Hk as [-> ->]. reflexivity.
Qed.

Lemma same_routing_call s p (st1 : V1.server) st2 :
  same_routing st1 st2 → plain_to p = true →
  match V1.settle (V1.call s p st1), settle (call s p st2) with
  | Normal (st1', out1), Normal (st2', out2) =>
      same_routing st1' st2' ∧ out1 = map to_socket out2
  | Throw, Throw => True
  | _, _ => False
  end.
Proof.
  intros Hsame Hk. unfold plain_to in Hk. unfold V1.settle, settle, V1.call, call.
  destruct (Get p "to") as [to|]; [|done].
  unfold TryToPropertyKey. destruct (stringable to); [|done].
  rewrite (v1_destination st1 st2 to Hsame Hk). unfold toSocket, toClient.
  destruct (truthy_id _); simpl; [|done].
  destruct (Get p "from") as [from|]; unfold_completion; [|done].
  by destruct (TryToString from).
Qed.

Lemma same_routing_forward name logs p (st1 : V1.server) st2 :
  same_routing st1 st2 → plain_to p = true →
  logs = true ∨ from_ok p = true →
  match V1.settle (V1.forward name logs p st1), settle (forward name p st2) with
  | Normal (st1', out1), Normal (st2', out2) =>
      same_routing st1' st2' ∧ out1 = map to_socket out2
  | Throw, Throw => True
  | _, _ => False
  end.
Proof.
  intros Hsame Hk Hlog. unfold plain_to in Hk. unfold from_ok in Hlog.
  unfold V1.settle, settle, V1.forward, forward.
  destruct (Get p "to") as [to|] eqn:Hto; [|done].
  destruct (Get_Normal_other p "to" "from" to Hto) as [from Hfrom].
  rewrite Hfrom in *.
  unfold TryToPropertyKey. destruct (stringable to); [|done].
  rewrite (v1_destination st1 st2 to Hsame Hk). unfold toSocket, toClient.
  destruct (truthy_id _); simpl; [|done].
  unfold_completion. unfold TryToString. destruct logs.
  - by destruct (stringable from).
  - destruct Hlog as [Hl|Hl]; [discriminate|by rewrite Hl].
Qed.

Lemma same_routing_register s p (st1 : V1.server) st2 :
  same_routing st1 st2 → plain_userId p = true →
  match V1.register s p st1, register s p st2 with
  | Normal (st1', out1), Normal (st2', out2) =>
      same_routing st1' st2' ∧ out1 = map to_socket out2
  | Throw, Throw => True
  | _, _ => False
  end.
Proof.
  intros Hsame Hk. unfold plain_userId in Hk.
  destruct (Get p "userId") as [u|] eqn:Hu;
    [|unfold V1.register, register; by rewrite Hu].
  destruct (stringable u) eqn:Hs.
  - destruct (ToBoolean u) eqn:Ht.
    + destruct Hsame as (Hcl & Hdata & Hplain & Hp).
      rewrite (register_plain s p st2 u Hu Hs Ht Hk Hp).
      unfold V1.register. rewrite Hu. unfold_completion. rewrite Ht. simpl.
      rewrite (TryToPropertyKey_Normal _ Hs).
      destruct (plain_key_spec _ Hk) as [E1 _]. rewrite E1.
      split; [|done]. split; [|split; [|split]]; simpl.
      * intros k Hpk. destruct (decide (ToPropertyKey u = k)) as [<-|Hne].
        -- by rewrite !lookup_insert_eq.
        -- rewrite !lookup_insert_ne by done. by apply Hcl.
      * by rewrite Hdata.
      * intros s' u'. destruct (decide (s = s')) as [<-|Hne].
        -- rewrite lookup_insert_eq. by intros [= <-].
        -- rewrite lookup_insert_ne by done. apply Hplain.
      * exact Hp.
    + unfold V1.register, register, TryToString, TryToPropertyKey.
      rewrite Hu. unfold_completion. rewrite Hs, Ht. exact (conj Hsame eq_refl).
  - assert (Ht : ToBoolean u = true) by (by destruct u).
    unfold V1.register, register, TryToString, TryToPropertyKey.
    rewrite Hu. unfold_completion. by rewrite Ht, Hs.
Qed.

Lemma same_routing_disconnect s (st1 : V1.server) st2 :
  same_routing st1 st2 →
  match V1.disconnect s st1, disconnect s st2 with
  | Normal (st1', out1), Normal (st2', out2) =>
      same_routing st1' st2' ∧ out1 = map to_socket out2
  | Throw, Throw => True
  | _, _ => False
  end.
Proof.
  intros Hsame. pose proof Hsame as (Hcl & Hdata & Hplain & Hp).
  unfold V1.disconnect. rewrite Hdata.
  destruct (data_userId st2 !! s) as [u|] eqn:Hu; simpl.
  - destruct (stringable u) eqn:Hs.
    + destruct (ToBoolean u) eqn:Ht.
      * rewrite (disconnect_plain s st2 u Hu Hs Ht (Hplain s u Hu) Hp).
        unfold_completion. rewrite (TryToPropertyKey_Normal _ Hs).
        split; [|done]. split; [|split; [|split]]; simpl; try done.
        intros k Hpk. destruct (decide (ToPropertyKey u = k)) as [<-|Hne].
        -- rewrite lookup_delete_eq, lookup_alter_eq.
           by destruct (clients st2 !! ToPropertyKey u).
        -- rewrite lookup_delete_ne, lookup_alter_ne by done. by apply Hcl.
      * unfold disconnect, TryToString. rewrite Hu. simpl. unfold_completion.
        rewrite Hs, Ht. exact (conj Hsame eq_refl).
    + assert (Ht : ToBoolean u = true) by (by destruct u).
      unfold disconnect, TryToString, TryToPropertyKey. rewrite Hu. simpl.
      unfold_completion. by rewrite Ht, Hs.
  - unfold disconnect. rewrite Hu. exact (conj Hsame eq_refl).
Qed.

(** X17. The two revisions of the file route alike.  On the events the
    first revision listens to ([register], [call], [accept_call],
    [reject_call], [end_call], [disconnect]), with user ids that are not
    names inherited from [Object.prototype] and, for [reject_call], a
    [from] that has a string form: started from states holding the same
    routing data, a run emits the same messages to the same sockets in
    both, ends with the same routing data, and throws in one exactly when
    it throws in the other.  Replacing the map of socket ids by records
    changed no routing. *)
Theorem revisions_route_alike ms (st1 : V1.server) st2 :
  same_routing st1 st2 → forallb routable ms = true →
  match V1.run ms st1, run ms st2 with
  | Normal (st1', out1), Normal (st2', out2) =>
      same_routing st1' st2' ∧ out1 = map to_socket out2
  | Throw, Throw => True
  | _, _ => False
  end.
Proof.
  revert st1 st2. induction ms as [|m ms IH]; intros st1 st2 Hsame Hall; simpl.
  - by unfold_completion.
  - simpl in Hall. apply andb_true_iff in Hall as [Hm Hms].
    assert (Hstep : match V1.handle m st1, handle m st2 with
                    | Normal (st1', out1), Normal (st2', out2) =>
                        same_routing st1' st2' ∧ out1 = map to_socket out2
                    | Throw, Throw => True
                    | _, _ => False
                    end).
    { destruct m as [s p|s p|s p|s p|s p|s p|s]; simpl in *; try discriminate.
      - by apply same_routing_register.
      - by apply same_routing_call.
      - apply same_routing_forward; [done|done|by left].
      - apply andb_true_iff in Hm as [Hto Hfrom].
        apply same_routing_forward; [done|done|by right].
      - apply same_routing_forward; [done|done|by left].
      - by apply same_routing_disconnect. }
    destruct (V1.handle m st1) as [[sa oa]|], (handle m st2) as [[sb ob]|];
      unfold_completion; try done.
    destruct Hstep as [Hsame' ->].
    pose proof (IH sa sb Hsame' Hms) as Hrest.
    destruct (V1.run ms sa) as [[sc oc]|], (run ms sb) as [[sd od]|]; try done.
    destruct Hrest as [Hsame'' ->]. split; [done|]. by rewrite map_app.
Qed.
End Further.

(** *** The further properties at concrete inputs *)

Lemma register_push_sets_only_the_token_witness :
  Get (push_msg "doctor" "tok") "userId" = Normal (VString "doctor")
  ∧ Get (push_msg "doctor" "tok") "pushToken" = Normal (VString "tok")
  ∧ pristine doctor_online
  ∧ (∃ st', register_push (fmt := plain_format) "c9" (push_msg "doctor" "tok") doctor_online
            = Normal (st', [])
            ∧ toPushToken (fmt := plain_format) st' (VString "doctor")
              = Some (VString "tok")
            ∧ toSocket (fmt := plain_format) st' (VString "doctor") = Some "c1"
            ∧ data_userId st' = data_userId doctor_online)
  ∧ register_push (fmt := plain_format) "c9" (push_msg "doctor" "") doctor_online
    = Normal (doctor_online, []).
Proof.
  split; [reflexivity|]. split; [reflexivity|]. split; [reflexivity|]. split.
  - destruct (proj1 (register_push_sets_only_the_token (fmt := plain_format)
                       "c9" (push_msg "doctor" "tok") doctor_online
                       (VString "doctor") (VString "tok")
                       eq_refl eq_refl eq_refl eq_refl eq_refl)
                eq_refl eq_refl eq_refl)
      as (st' & Hrun & Htok & Hsock & _ & Hdata & _).
    exists st'. split; [exact Hrun|]. split; [exact Htok|]. split; [|exact Hdata].
    rewrite Hsock. vm_compute. reflexivity.
  - apply (proj2 (register_push_sets_only_the_token (fmt := plain_format)
                    "c9" (push_msg "doctor" "") doctor_online
                    (VString "doctor") (VString "")
                    eq_refl eq_refl eq_refl eq_refl eq_refl)).
    right. reflexivity.
Defined.

Lemma register_sets_only_the_socket_witness :
  Get (userId_msg "doctor") "userId" = Normal (VString "doctor")
  ∧ pristine doctor_with_token
  ∧ (∃ st', register (fmt := plain_format) "c7" (userId_msg "doctor") doctor_with_token
            = Normal (st', [])
            ∧ toSocket (fmt := plain_format) st' (VString "doctor") = Some "c7"
            ∧ data_userId st' !! "c7" = Some (VString "doctor")
            ∧ toPushToken (fmt := plain_format) st' (VString "doctor")
              = Some (VString "ExponentPushToken[x]"))
  ∧ register (fmt := plain_format) "c7" (userId_msg "") doctor_with_token
    = Normal (doctor_with_token, []).
Proof.
  split; [reflexivity|]. split; [reflexivity|]. split.
  - destruct (proj1 (register_sets_only_the_socket (fmt := plain_format)
                       "c7" (userId_msg "doctor") doctor_with_token
                       (VString "doctor") eq_refl eq_refl eq_refl) eq_refl eq_refl)
      as (st' & Hrun & Hsock & Hdata & Htok & _).
    exists st'. split; [exact Hrun|]. split; [exact Hsock|]. split; [exact Hdata|].
    rewrite Htok. vm_compute. reflexivity.
  - exact (proj2 (register_sets_only_the_socket (fmt := plain_format)
                    "c7" (userId_msg "") doctor_with_token (VString "")
                    eq_refl eq_refl eq_refl)
             eq_refl).
Defined.

Lemma register_and_register_push_commute_witness :
  pristine initial
  ∧ plain_userId (fmt := plain_format) (userId_msg "doctor") = true
  ∧ plain_userId (fmt := plain_format) (push_msg "doctor" "tok") = true
  ∧ run (fmt := plain_format)
        [Register "c1" (userId_msg "doctor"); RegisterPush "c2" (push_msg "doctor" "tok")]
        initial
    = run (fmt := plain_format)
          [RegisterPush "c2" (push_msg "doctor" "tok"); Register "c1" (userId_msg "doctor")]
          initial.
Proof.
  split; [reflexivity|]. split; [reflexivity|]. split; [reflexivity|].
  exact (register_and_register_push_commute (fmt := plain_format)
           "c1" (userId_msg "doctor") "c2" (push_msg "doctor" "tok") initial
           eq_refl eq_refl eq_refl).
Defined.

Lemma disconnect_unregistered_or_repeated_witness :
  data_userId doctor_online !! "c5" = None
  ∧ disconnect (fmt := plain_format) "c5" doctor_online = Normal (doctor_online, [])
  ∧ run (fmt := plain_format) [Disconnect "c1"; Disconnect "c1"] doctor_online
    = run (fmt := plain_format) [Disconnect "c1"] doctor_online.
Proof.
  split; [vm_compute; reflexivity|]. split.
  - apply (proj1 (disconnect_unregistered_or_repeated (fmt := plain_format)
                    "c5" doctor_online)).
    vm_compute. reflexivity.
  - exact (proj2 (disconnect_unregistered_or_repeated (fmt := plain_format)
                    "c1" doctor_online)).
Defined.

Lemma reregistration_leaves_stale_entry_witness :
  Get (userId_msg "A") "userId" = Normal (VString "A")
  ∧ Get (userId_msg "B") "userId" = Normal (VString "B")
  ∧ ToPropertyKey (fmt := plain_format) (VString "A")
    ≠ ToPropertyKey (fmt := plain_format) (VString "B")
  ∧ pristine initial
  ∧ ∃ st', run (fmt := plain_format)
               [Register "c1" (userId_msg "A"); Register "c1" (userId_msg "B");
                Disconnect "c1"] initial
           = Normal (st', [])
           ∧ toSocket (fmt := plain_format) st' (VString "A") = Some "c1"
           ∧ toSocket (fmt := plain_format) st' (VString "B") = None.
Proof.
  assert (Hne : ToPropertyKey (fmt := plain_format) (VString "A")
                ≠ ToPropertyKey (fmt := plain_format) (VString "B")) by discriminate.
  split; [reflexivity|]. split; [reflexivity|]. split; [exact Hne|].
  split; [reflexivity|].
  exact (reregistration_leaves_stale_entry (fmt := plain_format) "c1"
           (userId_msg "A") (userId_msg "B") (VString "A") (VString "B") initial
           eq_refl eq_refl eq_refl eq_refl eq_refl eq_refl eq_refl eq_refl Hne eq_refl).
Defined.

Lemma emissions_are_addressed_by_the_registry_witness :
  pristine doctor_online
  ∧ handle (fmt := plain_format) (Call "c2" (call_msg "doctor" "patient")) doctor_online
    = Normal (doctor_online,
              [{| room := "c1"; event := "incoming_call";
                  payload := call_msg "doctor" "patient" |}])
  ∧ (length [{| room := "c1"; event := "incoming_call";
                payload := call_msg "doctor" "patient" |}] ≤ 1)%nat.
Proof.
  assert (Hh : handle (fmt := plain_format) (Call "c2" (call_msg "doctor" "patient"))
                 doctor_online
               = Normal (doctor_online,
                         [{| room := "c1"; event := "incoming_call";
                             payload := call_msg "doctor" "patient" |}]))
    by (vm_compute; reflexivity).
  split; [reflexivity|]. split; [exact Hh|].
  exact (proj1 (emissions_are_addressed_by_the_registry (fmt := plain_format)
                  (Call "c2" (call_msg "doctor" "patient")) doctor_online doctor_online
                  _ eq_refl Hh)).
Defined.

Lemma routing_never_changes_the_registry_witness :
  forallb is_routing [Call "c2" (call_msg "doctor" "patient");
                      EndCall "c1" (call_msg "patient" "doctor")] = true
  ∧ ∃ st' out,
      run (fmt := plain_format)
          [Call "c2" (call_msg "doctor" "patient");
           EndCall "c1" (call_msg "patient" "doctor")] doctor_online
      = Normal (st', out)
      ∧ st' = doctor_online ∧ (length out ≤ 2)%nat.
Proof.
  split; [reflexivity|].
  assert (Hrun : run (fmt := plain_format)
                   [Call "c2" (call_msg "doctor" "patient");
                    EndCall "c1" (call_msg "patient" "doctor")] doctor_online
                 = Normal (doctor_online,
                           [{| room := "c1"; event := "incoming_call";
                               payload := call_msg "doctor" "patient" |}]))
    by (vm_compute; reflexivity).
  eexists _, _. split; [exact Hrun|].
  exact (routing_never_changes_the_registry (fmt := plain_format)
           [Call "c2" (call_msg "doctor" "patient");
            EndCall "c1" (call_msg "patient" "doctor")] _ _ _ eq_refl Hrun).
Defined.

Lemma records_and_tokens_are_never_removed_witness :
  ∃ st', run (fmt := plain_format)
             [Disconnect "c1"; Register "c3" (userId_msg "nurse")] doctor_with_token
         = Normal (st', [])
         ∧ is_Some (clients st' !! "doctor")
         ∧ is_Some (clients st' !! "doctor" ≫= pushToken).
Proof.
  assert (Hrun : ∃ st', run (fmt := plain_format)
                          [Disconnect "c1"; Register "c3" (userId_msg "nurse")]
                          doctor_with_token = Normal (st', []))
    by (eexists; reflexivity).
  destruct Hrun as [st' Hrun]. exists st'. split; [exact Hrun|].
  destruct (records_and_tokens_are_never_removed (fmt := plain_format)
              _ _ _ _ "doctor" Hrun) as [Hrec Htok].
  split.
  - apply Hrec. vm_compute. by eexists.
  - apply Htok. vm_compute. by eexists.
Defined.

Lemma well_formed_runs_never_throw_witness :
  consistent initial ∧ pristine initial
  ∧ ∃ st' out,
      run (fmt := plain_format)
          [Register "c1" (userId_msg "doctor");
           RegisterPush "c1" (push_msg "doctor" "tok");
           Call "c2" (call_msg "doctor" "patient");
           Disconnect "c1"] initial
      = Normal (st', out)
      ∧ consistent st' ∧ pristine st'.
Proof.
  split; [apply initial_consistent|]. split; [reflexivity|].
  exact (well_formed_runs_never_throw (fmt := plain_format)
           [Register "c1" (userId_msg "doctor");
            RegisterPush "c1" (push_msg "doctor" "tok");
            Call "c2" (call_msg "doctor" "patient");
            Disconnect "c1"] initial initial_consistent eq_refl eq_refl eq_refl).
Defined.

Lemma reachable_states_are_consistent_witness :
  ∃ st, reachable (fmt := plain_format) st
        ∧ consistent st ∧ pristine st
        ∧ (sendPush (fmt := plain_format) (net := provider_accepts)
                    (call_msg "nurse" "patient") st
           = Normal (error_response 400 "No push token for recipient", [])
           ↔ toPushToken (fmt := plain_format) st (VString "nurse") = None).
Proof.
  assert (Hreach : ∃ st, run (fmt := plain_format)
                           [Register "c1" (userId_msg "doctor");
                            RegisterPush "c1" (push_msg "doctor" "tok")] initial
                         = Normal (st, []))
    by (eexists; reflexivity).
  destruct Hreach as [st Hrun]. exists st.
  assert (Hr : reachable (fmt := plain_format) st)
    by (eexists _, _; split; [|exact Hrun]; reflexivity).
  split; [exact Hr|].
  destruct (reachable_states_are_consistent (fmt := plain_format)
              (net := provider_accepts) st Hr) as (Hc & Hp & Hpush).
  split; [exact Hc|]. split; [exact Hp|].
  exact (Hpush (call_msg "nurse" "patient") (VString "nurse") eq_refl eq_refl).
Defined.

Lemma sendPush_fails_only_on_rejection_witness :
  pristine doctor_with_token
  ∧ toPushToken (fmt := plain_format) doctor_with_token (VString "doctor")
    = Some (VString "ExponentPushToken[x]")
  ∧ ∃ resp,
      sendPush (fmt := plain_format) (net := provider_refuses)
               (call_msg "doctor" "patient") doctor_with_token
      = Normal (resp, [push_request (fmt := plain_format)
                         (VString "ExponentPushToken[x]") (VString "patient")
                         (VString "room1")])
      ∧ resp = ok_response.
Proof.
  assert (Htok : toPushToken (fmt := plain_format) doctor_with_token
                   (VString "doctor") = Some (VString "ExponentPushToken[x]"))
    by (vm_compute; reflexivity).
  split; [reflexivity|]. split; [exact Htok|].
  destruct (sendPush_fails_only_on_rejection (fmt := plain_format)
              (net := provider_refuses) (call_msg "doctor" "patient")
              doctor_with_token (VString "doctor") (VString "patient")
              (VString "room1") (VString "ExponentPushToken[x]")
              eq_refl eq_refl eq_refl eq_refl eq_refl eq_refl eq_refl Htok
              eq_refl eq_refl)
    as (resp & Hsend & Hfail & Hok).
  exists resp. split; [exact Hsend|]. apply Hok.
  intros Hresp. apply Hfail in Hresp as [Hrej|(r & Hres & _ & Htext)].
  - discriminate Hrej.
  - injection Hres as <-. discriminate Htext.
Defined.

Lemma registered_user_receives_the_call_witness :
  ToPropertyKey (fmt := plain_format) (VArray [VString "doctor"])
  = ToPropertyKey (fmt := plain_format) (VString "doctor")
  ∧ pristine initial
  ∧ ∃ st', run (fmt := plain_format)
               [Register "c1" (userId_msg "doctor");
                Call "c2" (VObject [("to", VArray [VString "doctor"])])] initial
           = Normal (st', [{| room := "c1"; event := "incoming_call";
                              payload := VObject [("to", VArray [VString "doctor"])] |}])
           ∧ toSocket (fmt := plain_format) st' (VString "doctor") = Some "c1".
Proof.
  split; [reflexivity|]. split; [reflexivity|].
  apply (registered_user_receives_the_call (fmt := plain_format) "c1"
           (userId_msg "doctor") (VString "doctor") "c2"
           (VObject [("to", VArray [VString "doctor"])]) (VArray [VString "doctor"])
           VUndefined initial); try reflexivity.
  discriminate.
Defined.



Lemma revisions_route_alike_witness :
  same_routing (fmt := plain_format) V1.initial initial
  ∧ match V1.run (fmt := plain_format)
                 [Register "c1" (userId_msg "doctor");
                  Call "c2" (call_msg "doctor" "patient");
                  Disconnect "c1";
                  Call "c2" (call_msg "doctor" "patient")] V1.initial,
          run (fmt := plain_format)
              [Register "c1" (userId_msg "doctor");
               Call "c2" (call_msg "doctor" "patient");
               Disconnect "c1";
               Call "c2" (call_msg "doctor" "patient")] initial with
    | Normal (st1', out1), Normal (st2', out2) =>
        same_routing (fmt := plain_format) st1' st2' ∧ out1 = map to_socket out2
    | Throw, Throw => True
    | _, _ => False
    end.
Proof.
  assert (Hinit : same_routing (fmt := plain_format) V1.initial initial).
  { split; [|split; [reflexivity|split; [|reflexivity]]].
    - intros k _. simpl. by rewrite !lookup_empty.
    - intros s u. simpl. by rewrite lookup_empty. }
  split; [exact Hinit|].
  exact (revisions_route_alike (fmt := plain_format)
           [Register "c1" (userId_msg "doctor");
            Call "c2" (call_msg "doctor" "patient");
            Disconnect "c1";
            Call "c2" (call_msg "doctor" "patient")]
           V1.initial initial Hinit eq_refl).
Defined.
